(** * odoo-newrelic: the start-up patching procedures of [newrelic/__init__.py]

    The module is start-up glue: it reads the Odoo configuration, starts the
    New Relic agent and replaces attributes of framework classes by wrapped
    versions.  Everything it does is a side effect on process-wide state, so
    the embedding is a state-and-exception monad over a record [world] that
    holds exactly the state the source reads and writes:

    - [os.environ] and [odoo.tools.config];
    - [odoo.http.Application], [odoo.service.server.server] and the two
      dispatcher classes' [handle_error];
    - the calls made to the agent, in the order they are made;
    - the records given to [_logger];
    - the entries into the module's five procedures, kept so that "is
      invoked" can be stated.

    Python exceptions are the [Raise] outcome; state written before an
    exception is raised stays written, as in Python. *)

From Stdlib Require Import ZArith String Ascii List Lia.
From stdpp Require Import base strings gmap list.

Open Scope string_scope.

(** ** Python values and exceptions *)

(** The values found in the configuration store and in marker attributes. *)
Inductive pyval : Type :=
| PNone
| PBool (b : bool)
| PInt (n : Z)
| PStr (s : string).

(** Python truthiness, as used by [if x:] and [not x]. *)
Definition truthy (v : pyval) : bool :=
  match v with
  | PNone => false
  | PBool b => b
  | PInt n => negb (n =? 0)%Z
  | PStr s => negb (String.eqb s "")
  end.

(** The exception classes the module can meet.  All of them derive from
    [Exception]. *)
Inductive exn : Type :=
| KeyError (key : string)
| AttributeError (obj attr : string)
| ValueError (msg : string)
| IndexError (msg : string)
| ImportError (name : string)
| ConfigurationError (msg : string).

Definition is_KeyError (e : exn) : bool :=
  match e with KeyError _ => true | _ => false end.

Definition is_AttributeError (e : exn) : bool :=
  match e with AttributeError _ _ => true | _ => false end.

(** [except Exception] catches every class above. *)
Definition is_Exception (e : exn) : bool := true.

(** ** Python string methods *)

Module PyStr.

(** [str.isspace] on one ASCII character: tab to carriage return, the four
    separators 0x1c to 0x1f, and the space. *)
Definition isspace (c : ascii) : bool :=
  let n := nat_of_ascii c in
  ((9 <=? n)%nat && (n <=? 13)%nat) || ((28 <=? n)%nat && (n <=? 32)%nat).

Fixpoint lstrip (s : string) : string :=
  match s with
  | EmptyString => EmptyString
  | String c s' => if isspace c then lstrip s' else s
  end.

Fixpoint rstrip (s : string) : string :=
  match s with
  | EmptyString => EmptyString
  | String c s' =>
      let r := rstrip s' in
      if isspace c && String.eqb r "" then EmptyString else String c r
  end.

(** [s.strip()] *)
Definition strip (s : string) : string := rstrip (lstrip s).

(** [s.split(sep)] for a one-character separator: one more piece than
    there are separators, empty pieces kept. *)
Fixpoint split (sep : ascii) (s : string) : list string :=
  match s with
  | EmptyString => [EmptyString]
  | String c s' =>
      if Ascii.eqb c sep then EmptyString :: split sep s'
      else match split sep s' with
           | piece :: rest => String c piece :: rest
           | [] => [String c EmptyString]
           end
  end.

(** [s.startswith(p)] *)
Definition startswith (s p : string) : bool := String.prefix p s.

(** Whether the character occurs in the string. *)
Fixpoint contains (c : ascii) (s : string) : bool :=
  match s with
  | EmptyString => false
  | String c' s' => Ascii.eqb c' c || contains c s'
  end.

End PyStr.

(** ** Framework objects *)

(** The value of a [__call__] attribute: the framework's own method, or
    that method under layers of the agent's WSGI wrapper. *)
Inductive callable : Type :=
| Method (qualname : string)
| WrappedCallable (wrapped : callable).

(** A WSGI application object: what [odoo.http.Application] and
    [server.app] refer to.  [call_readonly] says whether assigning to its
    [__call__] raises [AttributeError] (the Sentry middleware case of the
    source comment); [nr_instrumented] is the marker attribute
    [_nr_instrumented], absent when [None].  The agent's wrapper is an
    object proxy that keeps [_nr_]-prefixed attributes on itself; the model
    lets it pass [__call__] through to the object it wraps.  The source
    marks every wrapper it makes before it returns and tests the marker
    before it touches [__call__], so it never reads or assigns [__call__]
    on a wrapper of its own. *)
Inductive application : Type :=
| AppObject (name : string) (call : callable) (call_readonly : bool)
    (nr_instrumented : option pyval)
| WrappedApplication (wrapped : application) (nr_instrumented : option pyval).

(** [odoo.service.server.server], once a server exists.  Its application
    is kept as an object of its own, with the attributes the source reads
    and writes on it; what an instance sees of an assignment made on its
    class is not part of the model. *)
Record server_obj : Type := { app : application }.

(** An exception instance: an instance of (a subclass of)
    [werkzeug.exceptions.HTTPException], which always has a [code]
    attribute, or an instance of any other class, which may have a [code]
    attribute of its own (as [urllib.error.HTTPError] and [SystemExit]
    have). *)
Inductive exc_value : Type :=
| HTTPException (cls : string) (code : pyval)
| OtherException (cls : string) (code : option pyval).

(** Objects passed to and returned by [handle_error]. *)
Inductive pyobj : Type :=
| Dispatcher (cls : string)
| ExcObject (value : exc_value)
| Value (v : pyval)
| Response (body : string).

(** What a dispatcher class's [handle_error] attribute refers to. *)
Inductive handler_ref : Type :=
| OriginalHandler (cls : string)
| NrWrapper (wrapped : handler_ref).

(** ** The agent and the logger, as seen from this module *)

(** The calls into [newrelic.agent] that have an effect, recorded in the
    order they are made. *)
Inductive agent_call : Type :=
| Initialize (args : list pyval)
| WrapBackgroundTask (module path : string)
| WrapFunctionTrace (module path : string)
| NoticeError (transaction : string) (status_code : pyval)
| EnterFunctionTrace (transaction name : string)
| ExitFunctionTrace (transaction name : string).

Inductive level : Type := INFO | WARNING | ERROR.

(** A log message: a literal, the formatted list of trace patches, or an
    exception object. *)
Inductive message : Type :=
| Text (s : string)
| ApplyingTracingTo (nr_patches : list string)
| OfException (e : exn).

(** The five procedures of the module; [calls] below records each entry. *)
Inductive procedure : Type :=
| proc_initialize_agent
| proc_patch_wsgi
| proc_patch_bus_controller
| proc_patch_methods
| proc_setup_error_handling.

(** ** Process-wide state *)

(** [workers] is one of the server's declared options: the option parser
    gives it a value in every process (0 or [None] without worker
    processes), so [config["workers"]] always finds it.  The other keys
    ([new_relic_config_file], [new_relic_environment],
    [new_relic_odoo_trace], [stop_after_init]) are in [config] only when
    something set them, and their values are whatever the configuration file
    parser produced: strings, but also booleans for [True]/[False].

    [initialize_error] is what the agent's [initialize] does with the
    arguments it is given: it returns ([None]), or it raises
    [newrelic.api.exceptions.ConfigurationError] with a message, as it does
    for a configuration file it cannot read. *)
Record world : Type := {
  environ : gmap string string;
  workers : pyval;
  config : gmap string pyval;
  Application : application;
  server : option server_obj;
  bus_importable : bool;
  BaseModel : list (string * bool);
  HttpDispatcher_handle_error : handler_ref;
  JsonRPCDispatcher_handle_error : handler_ref;
  current_transaction : option string;
  exc_info : option (string * exc_value * string);
  initialize_error : list pyval -> option string;
  agent : list agent_call;
  log : list (level * message);
  calls : list procedure
}.

Definition set_Application (a : application) (w : world) : world :=
  {| environ := environ w; workers := workers w; config := config w;
     Application := a; server := server w;
     bus_importable := bus_importable w; BaseModel := BaseModel w;
     HttpDispatcher_handle_error := HttpDispatcher_handle_error w;
     JsonRPCDispatcher_handle_error := JsonRPCDispatcher_handle_error w;
     current_transaction := current_transaction w; exc_info := exc_info w;
     initialize_error := initialize_error w;
     agent := agent w; log := log w; calls := calls w |}.

Definition set_server (s : option server_obj) (w : world) : world :=
  {| environ := environ w; workers := workers w; config := config w;
     Application := Application w; server := s;
     bus_importable := bus_importable w; BaseModel := BaseModel w;
     HttpDispatcher_handle_error := HttpDispatcher_handle_error w;
     JsonRPCDispatcher_handle_error := JsonRPCDispatcher_handle_error w;
     current_transaction := current_transaction w; exc_info := exc_info w;
     initialize_error := initialize_error w;
     agent := agent w; log := log w; calls := calls w |}.

Definition set_handlers (h j : handler_ref) (w : world) : world :=
  {| environ := environ w; workers := workers w; config := config w;
     Application := Application w; server := server w;
     bus_importable := bus_importable w; BaseModel := BaseModel w;
     HttpDispatcher_handle_error := h;
     JsonRPCDispatcher_handle_error := j;
     current_transaction := current_transaction w; exc_info := exc_info w;
     initialize_error := initialize_error w;
     agent := agent w; log := log w; calls := calls w |}.

Definition set_agent (a : list agent_call) (w : world) : world :=
  {| environ := environ w; workers := workers w; config := config w;
     Application := Application w; server := server w;
     bus_importable := bus_importable w; BaseModel := BaseModel w;
     HttpDispatcher_handle_error := HttpDispatcher_handle_error w;
     JsonRPCDispatcher_handle_error := JsonRPCDispatcher_handle_error w;
     current_transaction := current_transaction w; exc_info := exc_info w;
     initialize_error := initialize_error w;
     agent := a; log := log w; calls := calls w |}.

Definition set_log (l : list (level * message)) (w : world) : world :=
  {| environ := environ w; workers := workers w; config := config w;
     Application := Application w; server := server w;
     bus_importable := bus_importable w; BaseModel := BaseModel w;
     HttpDispatcher_handle_error := HttpDispatcher_handle_error w;
     JsonRPCDispatcher_handle_error := JsonRPCDispatcher_handle_error w;
     current_transaction := current_transaction w; exc_info := exc_info w;
     initialize_error := initialize_error w;
     agent := agent w; log := l; calls := calls w |}.

Definition set_calls (c : list procedure) (w : world) : world :=
  {| environ := environ w; workers := workers w; config := config w;
     Application := Application w; server := server w;
     bus_importable := bus_importable w; BaseModel := BaseModel w;
     HttpDispatcher_handle_error := HttpDispatcher_handle_error w;
     JsonRPCDispatcher_handle_error := JsonRPCDispatcher_handle_error w;
     current_transaction := current_transaction w; exc_info := exc_info w;
     initialize_error := initialize_error w;
     agent := agent w; log := log w; calls := c |}.

(** ** The monad of Python procedures *)

Inductive outcome (A : Type) : Type :=
| Return (a : A)
| Raise (e : exn).
Arguments Return {A} a.
Arguments Raise {A} e.

Definition Py (A : Type) : Type := world -> outcome A * world.

#[global] Instance Py_ret : MRet Py := fun A a w => (Return a, w).

#[global] Instance Py_bind : MBind Py := fun A B k m w =>
  match m w with
  | (Return a, w') => k a w'
  | (Raise e, w') => (Raise e, w')
  end.

Definition raise {A : Type} (e : exn) : Py A := fun w => (Raise e, w).

(** [try: body except C as e: handler], where [catches] decides [C]. *)
Definition try_except {A : Type} (body : Py A) (catches : exn -> bool)
    (handler : exn -> Py A) : Py A := fun w =>
  match body w with
  | (Return a, w') => (Return a, w')
  | (Raise e, w') => if catches e then handler e w' else (Raise e, w')
  end.

Definition gets {A : Type} (f : world -> A) : Py A := fun w => (Return (f w), w).

Definition modify (f : world -> world) : Py unit := fun w => (Return tt, f w).

(** Instrumentation of the model: entry into one of the five procedures. *)
Definition enter (p : procedure) : Py unit :=
  modify (fun w => set_calls (calls w ++ [p]) w).

(** The module's [_logger]. *)
Module _logger.

Definition emit (l : level) (m : message) : Py unit :=
  modify (fun w => set_log (log w ++ [(l, m)]) w).

Definition info (m : message) : Py unit := emit INFO m.
Definition warning (m : message) : Py unit := emit WARNING m.
Definition exception (e : exn) : Py unit := emit ERROR (OfException e).

End _logger.

(** [odoo.tools.config] and [os.environ]. *)
Module odoo_config.

(** [config[key]] *)
Definition getitem (key : string) : Py pyval := fun w =>
  match config w !! key with
  | Some v => (Return v, w)
  | None => (Raise (KeyError key), w)
  end.

(** [config.get(key)], with default [None]. *)
Definition get (key : string) : Py pyval :=
  gets (fun w => default PNone (config w !! key)).

(** [config["workers"]] *)
Definition getitem_workers : Py pyval := gets workers.

End odoo_config.

(** Attribute access on application objects. *)
Module App.

Definition describe (a : application) : string :=
  match a with
  | AppObject name _ _ _ => name
  | WrappedApplication _ _ => "WSGIApplicationWrapper"
  end.

(** [a._nr_instrumented]; [None] stands for [AttributeError]. *)
Definition nr_instrumented (a : application) : option pyval :=
  match a with
  | AppObject _ _ _ m => m
  | WrappedApplication _ m => m
  end.

(** [a._nr_instrumented = v] *)
Definition set_nr_instrumented (v : pyval) (a : application) : application :=
  match a with
  | AppObject name c ro _ => AppObject name c ro (Some v)
  | WrappedApplication a' _ => WrappedApplication a' (Some v)
  end.

(** [a.__call__] *)
Fixpoint call (a : application) : callable :=
  match a with
  | AppObject _ c _ _ => c
  | WrappedApplication a' _ => call a'
  end.

(** [a.__call__ = c]; [None] stands for [AttributeError]. *)
Fixpoint set_call (c : callable) (a : application) : option application :=
  match a with
  | AppObject name _ ro m =>
      if ro then None else Some (AppObject name c ro m)
  | WrappedApplication a' m =>
      match set_call c a' with
      | Some a'' => Some (WrappedApplication a'' m)
      | None => None
      end
  end.

(** The two reads and the write as procedures. *)
Definition getattr_nr_instrumented (a : application) : Py pyval :=
  match nr_instrumented a with
  | Some v => mret v
  | None => raise (AttributeError (describe a) "_nr_instrumented")
  end.

Definition setattr_call (c : callable) (a : application) : Py application :=
  match set_call c a with
  | Some a' => mret a'
  | None => raise (AttributeError (describe a) "__call__")
  end.

End App.

(** [newrelic.agent].  The agent is not part of the module: a call into it
    is recorded.  [initialize] then returns or raises as [initialize_error]
    says; the wrapping calls return, the targeted framework defining what
    they name. *)
Module newrelic_agent.

Definition record (c : agent_call) : Py unit :=
  modify (fun w => set_agent (agent w ++ [c]) w).

(** [initialize()], [initialize(path)], [initialize(path, env)] *)
Definition initialize (args : list pyval) : Py unit :=
  record (Initialize args);;
  rejects ← gets initialize_error;
  match rejects args with
  | Some msg => raise (ConfigurationError msg)
  | None => mret tt
  end.

(** [WSGIApplicationWrapper(x)] for a callable and for an application
    object.  A new wrapper has no marker of its own. *)
Definition WSGIApplicationWrapper_callable (c : callable) : callable :=
  WrappedCallable c.

Definition WSGIApplicationWrapper (a : application) : application :=
  WrappedApplication a None.

Definition wrap_background_task (module path : string) : Py unit :=
  record (WrapBackgroundTask module path).

Definition wrap_function_trace (module path : string) : Py unit :=
  record (WrapFunctionTrace module path).

End newrelic_agent.

(** ** [initialize_agent] *)

Definition initialize_agent : Py unit :=
  enter proc_initialize_agent;;
  try_except
    (file ← odoo_config.getitem "new_relic_config_file";
     env ← odoo_config.getitem "new_relic_environment";
     newrelic_agent.initialize [file; env])
    is_KeyError
    (fun _ =>
       try_except
         (file ← odoo_config.getitem "new_relic_config_file";
          newrelic_agent.initialize [file])
         is_KeyError
         (fun _ =>
            _logger.info (Text "NewRelic setting up from env variables");;
            newrelic_agent.initialize [])).

(** ** [patch_wsgi] *)

(** The fallback of [patch_wsgi]: the body of [except AttributeError as exc]. *)
Definition patch_wsgi_fallback (exc : exn) : Py unit :=
  modify (fun w =>
    set_Application (newrelic_agent.WSGIApplicationWrapper (Application w)) w);;
  server ← gets server;
  match server with
  | Some srv =>
      instrumented ←
        try_except (App.getattr_nr_instrumented (app srv))
          is_AttributeError (fun _ => mret (PBool false));
      if negb (truthy instrumented) then
        modify (set_server (Some
          {| app := App.set_nr_instrumented (PBool true)
                      (newrelic_agent.WSGIApplicationWrapper (app srv)) |}))
      else mret tt
  | None => mret tt
  end;;
  workers ← odoo_config.getitem_workers;
  if negb (truthy workers) then
    _logger.warning (OfException exc);;
    _logger.warning (Text
      "Failed to patch the WSGI application. Try loading newrelic as a server wide module.")
  else mret tt.

Definition patch_wsgi : Py bool :=
  enter proc_patch_wsgi;;
  instrumented ←
    try_except (a ← gets Application; App.getattr_nr_instrumented a)
      is_AttributeError (fun _ => mret (PBool false));
  if truthy instrumented then
    _logger.info (Text "NewRelic instrumented already");;
    mret false
  else
    try_except
      (a ← gets Application;
       a' ← App.setattr_call
              (newrelic_agent.WSGIApplicationWrapper_callable (App.call a)) a;
       modify (set_Application a'))
      is_AttributeError
      patch_wsgi_fallback;;
    modify (fun w =>
      set_Application (App.set_nr_instrumented (PBool true) (Application w)) w);;
    mret true.

(** ** [patch_bus_controller] *)

(** [import odoo.addons.bus.controllers.main] *)
Definition import_bus_controllers : Py unit := fun w =>
  if bus_importable w then (Return tt, w)
  else (Raise (ImportError "odoo.addons.bus.controllers.main"), w).

Definition patch_bus_controller : Py unit :=
  enter proc_patch_bus_controller;;
  try_except
    (_logger.info (Text "attaching to bus controller");;
     import_bus_controllers;;
     newrelic_agent.wrap_background_task "odoo.addons.bus.websocket"
       "Websocket._dispatch_bus_notifications";;
     _logger.info (Text "finished attaching to bus controller"))
    is_Exception
    (fun e => _logger.exception e).

(** ** [patch_methods] *)

(** A class as [dir] and [callable(getattr(cls, name))] see it: attribute
    names, each with whether its value is callable. *)
Definition dir (cls : list (string * bool)) : list string := map fst cls.

Definition callable_getattr (cls : list (string * bool)) (name : string) : bool :=
  match List.find (fun p => String.eqb (fst p) name) cls with
  | Some (_, c) => c
  | None => false
  end.

(** [for x in l: body(x)] *)
Fixpoint for_each {A : Type} (l : list A) (body : A -> Py unit) : Py unit :=
  match l with
  | [] => mret tt
  | x :: l' => body x;; for_each l' body
  end.

(** [a, b = l] *)
Definition unpack2 (l : list string) : Py (string * string) :=
  match l with
  | [a; b] => mret (a, b)
  | [] => raise (ValueError "not enough values to unpack (expected 2, got 0)")
  | [_] => raise (ValueError "not enough values to unpack (expected 2, got 1)")
  | _ => raise (ValueError "too many values to unpack (expected 2)")
  end.

(** [v.strip()]: only [str] has the method. *)
Definition method_strip (v : pyval) : Py string :=
  match v with
  | PStr s => mret (PyStr.strip s)
  | PNone => raise (AttributeError "NoneType" "strip")
  | PBool _ => raise (AttributeError "bool" "strip")
  | PInt _ => raise (AttributeError "int" "strip")
  end.

(** The fixed list of the [limited] mode. *)
Definition limited_paths : list string :=
  [ "BaseModel.create"; "BaseModel.read"; "BaseModel.read_group";
    "BaseModel.write"; "BaseModel.unlink";
    "BaseModel.search"; "BaseModel.search_read"; "BaseModel.search_count" ].

(** ['BaseModel.%s' % (func, )] for the attributes that are callable and do
    not start with [prefix]. *)
Definition BaseModel_paths (cls : list (string * bool)) (prefix : string)
    : list string :=
  map (fun func => "BaseModel." ++ func)
    (List.filter
       (fun func => callable_getattr cls func && negb (PyStr.startswith func prefix))
       (dir cls)).

(** [_module] and [_paths] at the end of the [if patch_base == ...] block. *)
Definition resolve (cls : list (string * bool)) (patch_base patch_type : string)
    : option string * list string :=
  if String.eqb patch_base "odoo.models.BaseModel" then
    (Some "odoo.models",
     if String.eqb patch_type "all" then BaseModel_paths cls "__"
     else if String.eqb patch_type "public" then BaseModel_paths cls "_"
     else if String.eqb patch_type "limited" then limited_paths
     else [])
  else (None, []).

(** The body of [for patch in nr_patches]. *)
Definition patch_one (patch : string) : Py unit :=
  '(patch_base, patch_type) ← unpack2 (PyStr.split ":" patch);
  cls ← gets BaseModel;
  match resolve cls patch_base patch_type with
  | (Some _module, _paths) =>
      for_each _paths (fun path => newrelic_agent.wrap_function_trace _module path)
  | (None, _) => mret tt
  end.

(** [os.environ.get('NEW_RELIC_ODOO_TRACE', config.get('new_relic_odoo_trace'))] *)
Definition read_nr_odoo_trace : Py pyval :=
  fallback ← odoo_config.get "new_relic_odoo_trace";
  gets (fun w =>
    match environ w !! "NEW_RELIC_ODOO_TRACE" with
    | Some s => PStr s
    | None => fallback
    end).

Definition patch_methods : Py unit :=
  enter proc_patch_methods;;
  nr_odoo_trace ← read_nr_odoo_trace;
  nr_patches ←
    match nr_odoo_trace with
    | PNone => mret ["odoo.models.BaseModel:limited"]
    | _ => s ← method_strip nr_odoo_trace; mret (PyStr.split "," s)
    end;
  try_except
    (_logger.info (ApplyingTracingTo nr_patches);;
     for_each nr_patches patch_one)
    is_Exception
    (fun e => _logger.exception e).

(** ** [setup_error_handling] *)

(** [status_code(exc, value, tb)]: [value.code] for an [HTTPException],
    and the implicit [None] otherwise. *)
Definition isinstance_HTTPException (value : exc_value) : bool :=
  match value with HTTPException _ _ => true | OtherException _ _ => false end.

(** [value.code]; [None] stands for [AttributeError]. *)
Definition getattr_code (value : exc_value) : option pyval :=
  match value with
  | HTTPException _ c => Some c
  | OtherException _ c => c
  end.

Definition status_code (exc : string) (value : exc_value) (tb : string) : pyval :=
  if isinstance_HTTPException value then
    match getattr_code value with
    | Some c => c
    | None => PNone
    end
  else PNone.

(** A [handle_error] callable: positional arguments, keyword arguments. *)
Definition handler : Type := list pyobj -> list (string * pyobj) -> Py pyobj.

(** [transaction.notice_error(status_code=f)]: the agent takes the exception
    being handled from [sys.exc_info()], reports nothing when there is none,
    and otherwise applies [f] to it to get the status code it reports. *)
Definition notice_error (transaction : string)
    (f : string -> exc_value -> string -> pyval) : Py unit := fun w =>
  match exc_info w with
  | Some (exc, value, tb) =>
      newrelic_agent.record (NoticeError transaction (f exc value tb)) w
  | None => (Return tt, w)
  end.

(** [with newrelic.agent.FunctionTrace(transaction, name): body].  The trace
    is left on every exit and lets exceptions through. *)
Definition with_FunctionTrace {A : Type} (transaction name : string)
    (body : Py A) : Py A := fun w =>
  let '(_, w1) := newrelic_agent.record (EnterFunctionTrace transaction name) w in
  let '(r, w2) := body w1 in
  let '(_, w3) := newrelic_agent.record (ExitFunctionTrace transaction name) w2 in
  (r, w3).

(** [args[i]] *)
Definition getitem_args (args : list pyobj) (i : nat) : Py pyobj :=
  match args !! i with
  | Some x => mret x
  | None => raise (IndexError "tuple index out of range")
  end.

Section ErrorHandler.

(** [newrelic.agent.callable_name], and the handlers the framework defines. *)
Variable callable_name : pyobj -> string.
Variable original : string -> handler.

Definition _nr_wrapper_handle_error (wrapped : handler) : handler :=
  fun args kwargs =>
    transaction ← gets current_transaction;
    match transaction with
    | None => wrapped args kwargs
    | Some transaction =>
        notice_error transaction status_code;;
        arg ← getitem_args args 1;
        with_FunctionTrace transaction (callable_name arg) (wrapped args kwargs)
    end.

(** The callable a [handle_error] attribute stands for. *)
Fixpoint denote (h : handler_ref) : handler :=
  match h with
  | OriginalHandler cls => original cls
  | NrWrapper h' => _nr_wrapper_handle_error (denote h')
  end.

End ErrorHandler.

(** [for target in (http.HttpDispatcher, http.JsonRPCDispatcher)] *)
Definition setup_error_handling : Py unit :=
  enter proc_setup_error_handling;;
  modify (fun w =>
    set_handlers (NrWrapper (HttpDispatcher_handle_error w))
      (JsonRPCDispatcher_handle_error w) w);;
  modify (fun w =>
    set_handlers (HttpDispatcher_handle_error w)
      (NrWrapper (JsonRPCDispatcher_handle_error w)) w).

(** ** [post_load] *)

Definition post_load : Py unit :=
  stop_after_init ← odoo_config.get "stop_after_init";
  if truthy stop_after_init then mret tt
  else
    initialize_agent;;
    patched ← patch_wsgi;
    if (patched : bool) then
      _logger.info (Text "WSGI patching done");;
      patch_bus_controller;;
      patch_methods;;
      setup_error_handling
    else mret tt.

(** ** Vocabulary of the statements *)

(** Whether [http.Application._nr_instrumented] is there and true: the test
    [patch_wsgi] starts with. *)
Definition marker_set (w : world) : bool :=
  match App.nr_instrumented (Application w) with
  | Some v => truthy v
  | None => false
  end.

(** The state the short-circuit path of [patch_wsgi] leaves: one log record
    more, and the entry into the procedure. *)
Definition patch_wsgi_noop (w : world) : world :=
  set_log (log w ++ [(INFO, Text "NewRelic instrumented already")])
    (set_calls (calls w ++ [proc_patch_wsgi]) w).

(** What [http.Application] is after a patch attempt: the same object with
    its [__call__] wrapped, or, when [__call__] is read-only, a wrapper
    around it; in both cases marked. *)
Definition patched_Application (a : application) : application :=
  App.set_nr_instrumented (PBool true)
    match App.set_call
            (newrelic_agent.WSGIApplicationWrapper_callable (App.call a)) a with
    | Some a' => a'
    | None => newrelic_agent.WSGIApplicationWrapper a
    end.

(** The trace specification in force is the string [s]: the environment
    variable when it is set, else the configuration key. *)
Definition configured_trace (w : world) (s : string) : Prop :=
  environ w !! "NEW_RELIC_ODOO_TRACE" = Some s \/
  (environ w !! "NEW_RELIC_ODOO_TRACE" = None /\
   config w !! "new_relic_odoo_trace" = Some (PStr s)).

(** A [module:mode] pair that [patch_base, patch_type = patch.split(':')]
    accepts. *)
Definition well_formed (patch : string) : Prop :=
  length (PyStr.split ":" patch) = 2.

(** The agent calls one well-formed pair leads to. *)
Definition wraps_of (cls : list (string * bool)) (patch : string)
    : list agent_call :=
  match PyStr.split ":" patch with
  | [patch_base; patch_type] =>
      match resolve cls patch_base patch_type with
      | (Some _module, _paths) => map (WrapFunctionTrace _module) _paths
      | (None, _) => []
      end
  | _ => []
  end.

(** A pair that makes the unpacking raise [ValueError]. *)
Definition malformed (patch : string) : Prop :=
  length (PyStr.split ":" patch) <> 2.

(** The [try] statement of [patch_methods]: what it does once the list of
    patches is known. *)
Definition trace_patches (nr_patches : list string) : Py unit :=
  try_except
    (_logger.info (ApplyingTracingTo nr_patches);;
     for_each nr_patches patch_one)
    is_Exception
    (fun e => _logger.exception e).

(** The state after a run of [patch_methods] that announced [nr_patches],
    made the agent calls [wraps] and logged [errors]. *)
Definition methods_traced (nr_patches : list string) (wraps : list agent_call)
    (errors : list (level * message)) (w : world) : world :=
  set_agent (agent w ++ wraps)
    (set_log (log w ++ (INFO, ApplyingTracingTo nr_patches) :: errors)
       (set_calls (calls w ++ [proc_patch_methods]) w)).

(** The value [patch_methods] reads for [nr_odoo_trace]. *)
Definition nr_odoo_trace (w : world) : pyval :=
  match environ w !! "NEW_RELIC_ODOO_TRACE" with
  | Some s => PStr s
  | None => default PNone (config w !! "new_relic_odoo_trace")
  end.

(** Whether [patch_methods] gets past its first statements: the value is
    [None], or a [str], which has [strip]. *)
Definition parses (v : pyval) : bool :=
  match v with
  | PNone | PStr _ => true
  | PBool _ | PInt _ => false
  end.

(** [config.get("stop_after_init")] is truthy. *)
Definition stops_after_init (w : world) : bool :=
  truthy (default PNone (config w !! "stop_after_init")).

(** [w'] has the environment and the configuration of [w]: the inputs the
    later steps of [post_load] decide on. *)
Definition same_settings (w w' : world) : Prop :=
  environ w' = environ w /\ config w' = config w.

(** The arguments [initialize_agent] ends up giving to [initialize]: the
    path and the environment name, the path alone, or nothing, by the keys
    the configuration has. *)
Definition initialize_args (w : world) : list pyval :=
  match config w !! "new_relic_config_file",
        config w !! "new_relic_environment" with
  | Some file, Some env => [file; env]
  | Some file, None => [file]
  | None, _ => []
  end.

(** How [initialize] ends on them. *)
Definition initialize_outcome (w : world) : outcome unit :=
  match initialize_error w (initialize_args w) with
  | None => Return tt
  | Some msg => Raise (ConfigurationError msg)
  end.

(** Whether the agent starts: [initialize] returns on these arguments. *)
Definition agent_starts (w : world) : bool :=
  match initialize_error w (initialize_args w) with
  | None => true
  | Some _ => false
  end.

(** *** Sample states *)

(** A process at start-up: nothing configured, nothing patched, no server
    object yet. *)
Definition startup : world :=
  {| environ := ∅; workers := PInt 0; config := ∅;
     Application :=
       AppObject "odoo.http.Application" (Method "Application.__call__")
         false None;
     server := None; bus_importable := true;
     BaseModel :=
       [("__init__", true); ("_name", false); ("_read", true);
        ("create", true); ("search", true)];
     HttpDispatcher_handle_error := OriginalHandler "HttpDispatcher";
     JsonRPCDispatcher_handle_error := OriginalHandler "JsonRPCDispatcher";
     current_transaction := None; exc_info := None;
     initialize_error := fun _ => None;
     agent := []; log := []; calls := [] |}.

Definition set_environ (e : gmap string string) (w : world) : world :=
  {| environ := e; workers := workers w; config := config w;
     Application := Application w; server := server w;
     bus_importable := bus_importable w; BaseModel := BaseModel w;
     HttpDispatcher_handle_error := HttpDispatcher_handle_error w;
     JsonRPCDispatcher_handle_error := JsonRPCDispatcher_handle_error w;
     current_transaction := current_transaction w; exc_info := exc_info w;
     initialize_error := initialize_error w;
     agent := agent w; log := log w; calls := calls w |}.

Definition set_config (c : gmap string pyval) (w : world) : world :=
  {| environ := environ w; workers := workers w; config := c;
     Application := Application w; server := server w;
     bus_importable := bus_importable w; BaseModel := BaseModel w;
     HttpDispatcher_handle_error := HttpDispatcher_handle_error w;
     JsonRPCDispatcher_handle_error := JsonRPCDispatcher_handle_error w;
     current_transaction := current_transaction w; exc_info := exc_info w;
     initialize_error := initialize_error w;
     agent := agent w; log := log w; calls := calls w |}.

Definition set_initialize_error (f : list pyval -> option string) (w : world)
    : world :=
  {| environ := environ w; workers := workers w; config := config w;
     Application := Application w; server := server w;
     bus_importable := bus_importable w; BaseModel := BaseModel w;
     HttpDispatcher_handle_error := HttpDispatcher_handle_error w;
     JsonRPCDispatcher_handle_error := JsonRPCDispatcher_handle_error w;
     current_transaction := current_transaction w; exc_info := exc_info w;
     initialize_error := f;
     agent := agent w; log := log w; calls := calls w |}.

(** A process configured with an agent configuration file that is not
    there: the agent refuses every [initialize] that names it. *)
Definition cannot_open : string :=
  "Unable to open configuration file /etc/odoo/newrelic.ini.".

Definition unreadable_config_file : world :=
  set_initialize_error
    (fun args =>
       match args with
       | PStr path :: _ =>
           if String.eqb path "/etc/odoo/newrelic.ini" then Some cannot_open
           else None
       | _ => None
       end)
    (set_config
       {[ "new_relic_config_file" := PStr "/etc/odoo/newrelic.ini" ]} startup).

(** The same process once [patch_wsgi] has run. *)
Definition instrumented : world :=
  set_Application
    (AppObject "odoo.http.Application"
       (WrappedCallable (Method "Application.__call__")) false
       (Some (PBool true)))
    startup.

(** The trace specification given in the environment. *)
Definition tracing_public : world :=
  set_environ {[ "NEW_RELIC_ODOO_TRACE" := "odoo.models.BaseModel:public" ]}
    startup.

Definition tracing_malformed : world :=
  set_environ
    {[ "NEW_RELIC_ODOO_TRACE" := "odoo.models.BaseModel:limited,odoo.models.BaseModel" ]}
    startup.

(** The trace specification given in the configuration file: as an empty
    value, and as [False], which the file parser turns into a boolean. *)
Definition tracing_empty : world :=
  set_config {[ "new_relic_odoo_trace" := PStr "" ]} startup.

Definition tracing_false : world :=
  set_config {[ "new_relic_odoo_trace" := PBool false ]} startup.

(** A request whose handling raised [NotFound], inside and outside a
    monitoring transaction. *)
Definition not_found : exc_value := HTTPException "NotFound" (PInt 404).

(** An [urllib.error.HTTPError]: it has a [code], and is no
    [werkzeug.exceptions.HTTPException]. *)
Definition foreign_http_error : exc_value :=
  OtherException "HTTPError" (Some (PInt 404)).

Definition set_request (t : option string)
    (e : option (string * exc_value * string)) (w : world) : world :=
  {| environ := environ w; workers := workers w; config := config w;
     Application := Application w; server := server w;
     bus_importable := bus_importable w; BaseModel := BaseModel w;
     HttpDispatcher_handle_error := HttpDispatcher_handle_error w;
     JsonRPCDispatcher_handle_error := JsonRPCDispatcher_handle_error w;
     current_transaction := t; exc_info := e;
     initialize_error := initialize_error w;
     agent := agent w; log := log w; calls := calls w |}.

Definition monitored_request : world :=
  set_request (Some "WebTransaction") (Some ("NotFound", not_found, "traceback"))
    instrumented.

Definition monitored_foreign_error : world :=
  set_request (Some "WebTransaction")
    (Some ("HTTPError", foreign_http_error, "traceback")) instrumented.

Definition unmonitored_request : world :=
  set_request None (Some ("NotFound", not_found, "traceback")) instrumented.

(** A framework handler and a naming function to run the wrapper with. *)
Definition framework_handle_error : handler := fun args kwargs =>
  _logger.warning (Text "handle_error");;
  mret (Response "404 Not Found").

Definition class_name (x : pyobj) : string :=
  match x with
  | Dispatcher cls => cls
  | ExcObject (HTTPException cls _) => cls
  | ExcObject (OtherException cls _) => cls
  | Value _ => "value"
  | Response _ => "Response"
  end.

(** *** Vocabulary of the further properties *)

(** Whether assigning to [a.__call__] raises: the object at the bottom of
    the wrappers decides. *)
Fixpoint call_is_readonly (a : application) : bool :=
  match a with
  | AppObject _ _ ro _ => ro
  | WrappedApplication a' _ => call_is_readonly a'
  end.

(** [server.app] after the fallback of [patch_wsgi]. *)
Definition fallback_server (s : option server_obj) : option server_obj :=
  match s with
  | None => None
  | Some srv =>
      match App.nr_instrumented (app srv) with
      | Some v =>
          if truthy v then Some srv
          else Some {| app := WrappedApplication (app srv) (Some (PBool true)) |}
      | None => Some {| app := WrappedApplication (app srv) (Some (PBool true)) |}
      end
  end.

Definition failed_to_patch : string :=
  "Failed to patch the WSGI application. Try loading newrelic as a server wide module.".

(** A process in which the Sentry middleware came first: the object
    [http.Application] refers to rejects the assignment to [__call__]. *)
Definition behind_sentry : world :=
  set_server
    (Some {| app := AppObject "odoo.http.root" (Method "Application.__call__") false None |})
    (set_Application
       (AppObject "SentryWsgiMiddleware" (Method "SentryWsgiMiddleware.__call__") true None)
       startup).

(** The number of occurrences of a character. *)
Fixpoint count_char (c : ascii) (s : string) : nat :=
  match s with
  | EmptyString => 0
  | String c' s' => (if Ascii.eqb c' c then 1 else 0) + count_char c s'
  end.

(** What [patch_base, patch_type = patch.split(':')] raises, if anything. *)
Definition unpack_error (patch : string) : option exn :=
  match PyStr.split ":" patch with
  | [_; _] => None
  | [] => Some (ValueError "not enough values to unpack (expected 2, got 0)")
  | [_] => Some (ValueError "not enough values to unpack (expected 2, got 1)")
  | _ => Some (ValueError "too many values to unpack (expected 2)")
  end.

(** The pairs the loop of [patch_methods] applies, those before the first
    one that fails to unpack, and the exception that ends the loop early. *)
Fixpoint applied (nr_patches : list string) : list string :=
  match nr_patches with
  | [] => []
  | patch :: rest =>
      match unpack_error patch with
      | None => patch :: applied rest
      | Some _ => []
      end
  end.

Fixpoint first_error (nr_patches : list string) : option exn :=
  match nr_patches with
  | [] => None
  | patch :: rest =>
      match unpack_error patch with
      | None => first_error rest
      | Some e => Some e
      end
  end.

(** The list [patch_methods] loops over, from the value it read. *)
Definition nr_patches_of (v : pyval) : list string :=
  match v with
  | PStr s => PyStr.split "," (PyStr.strip s)
  | _ => ["odoo.models.BaseModel:limited"]
  end.

(** The state [patch_methods] leaves when it returns, from the state it
    started in. *)
Definition patch_methods_result (w : world) : world :=
  let nr_patches := nr_patches_of (nr_odoo_trace w) in
  methods_traced nr_patches
    (flat_map (wraps_of (BaseModel w)) (applied nr_patches))
    match first_error nr_patches with
    | None => []
    | Some e => [(ERROR, OfException e)]
    end
    w.

(** An agent call that wraps a method of [BaseModel] in [odoo.models]. *)
Definition wraps_BaseModel (c : agent_call) : Prop :=
  exists name, c = WrapFunctionTrace "odoo.models" ("BaseModel." ++ name).

Definition tracing_two_pairs : world :=
  set_environ
    {[ "NEW_RELIC_ODOO_TRACE" := "odoo.models.BaseModel:limited,odoo.models.BaseModel:public" ]}
    startup.

(** The state once the wrapper has reported the error being handled, if
    there is one, to the transaction. *)
Definition noticed (transaction : string) (w : world) : world :=
  snd (notice_error transaction status_code w).

(** The state in which the wrapper calls the wrapped handler, and the state
    it makes of the one the handler leaves. *)
Definition trace_entered (transaction name : string) (w : world) : world :=
  set_agent
    (agent (noticed transaction w) ++ [EnterFunctionTrace transaction name])
    (noticed transaction w).

Definition trace_left (transaction name : string) (w : world) : world :=
  set_agent (agent w ++ [ExitFunctionTrace transaction name]) w.

(** A framework handler that raises. *)
Definition failing_handle_error : handler := fun args kwargs =>
  raise (ValueError "handle_error").

(** An agent call that wraps something. *)
Definition is_wrap (c : agent_call) : Prop :=
  match c with
  | WrapBackgroundTask _ _ | WrapFunctionTrace _ _ => True
  | _ => False
  end.

(** * Properties *)

(** Unfolds the monad and the primitive procedures. *)
Ltac py_unfold :=
  unfold _logger.info, _logger.warning, _logger.exception, _logger.emit,
    odoo_config.getitem, odoo_config.get, odoo_config.getitem_workers,
    newrelic_agent.initialize, newrelic_agent.wrap_background_task,
    newrelic_agent.wrap_function_trace, newrelic_agent.record, enter,
    try_except, raise, gets, modify, mbind, mret, Py_bind, Py_ret in *;
  cbv beta iota.

(** ** The agent bootstrapper *)

(** C9. [initialize_agent] makes exactly one call to the agent's
    [initialize]: with the configuration file path and the environment name
    when both keys are configured; with the path only when the lookup of
    the environment name fails; with no argument, after an info record, when
    the lookup of the path fails.  No [KeyError] of a lookup leaves it: it
    ends as that one call ends, returning when [initialize] returns and
    raising the [ConfigurationError] that [initialize] raises. *)
Theorem initialize_agent_strategies (w : world) :
  initialize_agent w =
    (match initialize_error w (initialize_args w) with
     | None => Return tt
     | Some msg => Raise (ConfigurationError msg)
     end,
     let w1 := set_calls (calls w ++ [proc_initialize_agent]) w in
     match config w !! "new_relic_config_file",
           config w !! "new_relic_environment" with
     | Some file, Some env =>
         set_agent (agent w ++ [Initialize [file; env]]) w1
     | Some file, None =>
         set_agent (agent w ++ [Initialize [file]]) w1
     | None, _ =>
         set_agent (agent w ++ [Initialize []])
           (set_log
              (log w ++ [(INFO, Text "NewRelic setting up from env variables")])
              w1)
     end).
Proof.
  unfold initialize_agent, newrelic_agent.initialize, initialize_args.
  py_unfold. cbn.
  destruct (config w !! "new_relic_config_file") as [file|] eqn:Hfile; cbn.
  - destruct (config w !! "new_relic_environment") as [env|]; cbn.
    + destruct (initialize_error w [file; env]); reflexivity.
    + rewrite Hfile. cbn. destruct (initialize_error w [file]); reflexivity.
  - rewrite Hfile. cbn.
    destruct (config w !! "new_relic_environment");
      destruct (initialize_error w []); reflexivity.
Qed.

(** C9, as first stated, fails: with a configuration file the agent cannot
    read, the [ConfigurationError] of [initialize] is no [KeyError], so no
    handler of [initialize_agent] takes it and it reaches the caller. *)
Lemma initialize_agent_escapes :
  initialize_agent unreadable_config_file =
    (Raise (ConfigurationError cannot_open),
     set_agent [Initialize [PStr "/etc/odoo/newrelic.ini"]]
       (set_calls [proc_initialize_agent] unreadable_config_file)).
Proof. vm_compute. reflexivity. Qed.

(** The run of [initialize_agent], in the form the lemmas on [post_load]
    use. *)
Lemma initialize_agent_effect (w : world) :
  exists msgs,
    initialize_agent w =
      (initialize_outcome w,
       set_agent (agent w ++ [Initialize (initialize_args w)])
         (set_log (log w ++ msgs)
            (set_calls (calls w ++ [proc_initialize_agent]) w))).
Proof.
  unfold initialize_agent, newrelic_agent.initialize, initialize_outcome,
    initialize_args.
  py_unfold. cbn.
  destruct (config w !! "new_relic_config_file") as [file|] eqn:Hfile; cbn.
  - destruct (config w !! "new_relic_environment") as [env|]; cbn.
    + exists []. rewrite app_nil_r.
      destruct (initialize_error w [file; env]); destruct w; reflexivity.
    + rewrite Hfile. cbn. exists []. rewrite app_nil_r.
      destruct (initialize_error w [file]); destruct w; reflexivity.
  - rewrite Hfile. cbn. eexists [_].
    destruct (config w !! "new_relic_environment");
      destruct (initialize_error w []); reflexivity.
Qed.

Lemma agent_starts_returns (w : world) :
  agent_starts w = true -> initialize_outcome w = Return tt.
Proof.
  unfold agent_starts, initialize_outcome.
  destruct (initialize_error w (initialize_args w)); [discriminate|reflexivity].
Qed.

Lemma agent_refuses_raises (w : world) :
  agent_starts w = false ->
  exists msg, initialize_outcome w = Raise (ConfigurationError msg).
Proof.
  unfold agent_starts, initialize_outcome.
  destruct (initialize_error w (initialize_args w)) as [msg|];
    [eauto|discriminate].
Qed.

(** ** The dispatcher patcher *)

Lemma nr_instrumented_set (v : pyval) (a : application) :
  App.nr_instrumented (App.set_nr_instrumented v a) = Some v.
Proof. destruct a; reflexivity. Qed.

Lemma patch_wsgi_short_circuit (w : world) :
  marker_set w = true -> patch_wsgi w = (Return false, patch_wsgi_noop w).
Proof.
  unfold marker_set, patch_wsgi, patch_wsgi_noop, App.getattr_nr_instrumented.
  py_unfold. cbn.
  destruct (App.nr_instrumented (Application w)) as [v|]; [|discriminate].
  cbn. intros ->. reflexivity.
Qed.

Lemma patch_wsgi_attempt (w : world) :
  marker_set w = false ->
  exists w', patch_wsgi w = (Return true, w') /\
             Application w' = patched_Application (Application w).
Proof.
  unfold marker_set, patch_wsgi, patched_Application, patch_wsgi_fallback,
    App.getattr_nr_instrumented, App.setattr_call.
  py_unfold. cbn. intros Hm.
  assert (Hfalse : truthy match App.nr_instrumented (Application w) with
                          | Some v => v
                          | None => PBool false
                          end = false).
  { destruct (App.nr_instrumented (Application w)); [exact Hm|reflexivity]. }
  destruct (App.nr_instrumented (Application w)) as [v|]; cbn;
    rewrite ?Hfalse; cbn.
  all: destruct (App.set_call _ _) as [a'|]; cbn;
    [eexists; split; reflexivity|].
  all: destruct (server w) as [srv|]; cbn;
    [destruct (App.nr_instrumented (app srv)) as [v0|]; cbn;
       [destruct (truthy v0); cbn|] |].
  all: destruct (truthy (workers w)); cbn; eexists; split; reflexivity.
Qed.

Lemma marker_set_patched (w : world) (a : application) :
  Application w = patched_Application a -> marker_set w = true.
Proof.
  unfold marker_set, patched_Application. intros ->.
  rewrite nr_instrumented_set. reflexivity.
Qed.

(** C1. When the marker on [http.Application] is set, [patch_wsgi] returns
    false and changes nothing but the log and the record of its own entry:
    [http.Application], its [__call__] and the server object are as before.
    In particular a call that follows a call that patched is such a no-op. *)
Theorem patch_wsgi_idempotent (w : world) :
  (marker_set w = true ->
   patch_wsgi w = (Return false, patch_wsgi_noop w) /\
   Application (patch_wsgi_noop w) = Application w /\
   server (patch_wsgi_noop w) = server w /\
   agent (patch_wsgi_noop w) = agent w) /\
  (forall w1 : world,
     patch_wsgi w = (Return true, w1) ->
     patch_wsgi w1 = (Return false, patch_wsgi_noop w1)).
Proof.
  split.
  - intros Hm. repeat split. apply patch_wsgi_short_circuit, Hm.
  - intros w1 Hfirst.
    destruct (marker_set w) eqn:Hm.
    + rewrite (patch_wsgi_short_circuit w Hm) in Hfirst. discriminate.
    + destruct (patch_wsgi_attempt w Hm) as (w' & Hrun & Happ).
      rewrite Hrun in Hfirst. injection Hfirst as <-.
      apply patch_wsgi_short_circuit.
      apply (marker_set_patched w' (Application w)), Happ.
Qed.

Lemma patch_wsgi_idempotent_witness :
  patch_wsgi instrumented = (Return false, patch_wsgi_noop instrumented) /\
  patch_wsgi (snd (patch_wsgi startup)) =
    (Return false, patch_wsgi_noop (snd (patch_wsgi startup))).
Proof.
  split.
  - apply (proj1 (patch_wsgi_idempotent instrumented)). reflexivity.
  - apply (proj2 (patch_wsgi_idempotent startup)). reflexivity.
Defined.

(** C2. [patch_wsgi] always returns.  It returns false exactly on the
    short-circuit path, which leaves [http.Application] alone; otherwise a
    patch was attempted, in place or through the fallback, the result is
    true and the marker on [http.Application] is [True]. *)
Theorem patch_wsgi_returns (w : world) :
  exists w',
    patch_wsgi w = (Return (negb (marker_set w)), w') /\
    if marker_set w then Application w' = Application w
    else Application w' = patched_Application (Application w) /\
         App.nr_instrumented (Application w') = Some (PBool true).
Proof.
  destruct (marker_set w) eqn:Hm; cbn.
  - exists (patch_wsgi_noop w). split; [|reflexivity].
    apply patch_wsgi_short_circuit, Hm.
  - destruct (patch_wsgi_attempt w Hm) as (w' & Hrun & Happ).
    exists w'. repeat split; [exact Hrun|exact Happ|].
    rewrite Happ. apply nr_instrumented_set.
Qed.

(** ** The method tracer *)

Lemma set_agent_same (w : world) : set_agent (agent w) w = w.
Proof. destruct w; reflexivity. Qed.

(** The loop over [_paths] records one agent call per path. *)
Lemma for_each_wrap (m : string) (paths : list string) (w : world) :
  for_each paths (newrelic_agent.wrap_function_trace m) w =
    (Return tt, set_agent (agent w ++ map (WrapFunctionTrace m) paths) w).
Proof.
  revert w. induction paths as [|path paths IH]; intros w; cbn.
  - rewrite app_nil_r, set_agent_same. reflexivity.
  - py_unfold. cbn. rewrite IH. cbn. rewrite <- app_assoc. reflexivity.
Qed.

Lemma patch_one_well_formed (patch : string) (w : world) :
  well_formed patch ->
  patch_one patch w =
    (Return tt, set_agent (agent w ++ wraps_of (BaseModel w) patch) w).
Proof.
  unfold well_formed, patch_one, wraps_of.
  destruct (PyStr.split ":" patch) as [|patch_base [|patch_type [|]]];
    try discriminate.
  intros _. py_unfold. cbn.
  destruct (resolve (BaseModel w) patch_base patch_type) as [[m|] paths].
  - apply for_each_wrap.
  - rewrite app_nil_r, set_agent_same. reflexivity.
Qed.

Lemma patch_one_malformed (patch : string) (w : world) :
  malformed patch ->
  exists msg, patch_one patch w = (Raise (ValueError msg), w).
Proof.
  unfold malformed, patch_one.
  destruct (PyStr.split ":" patch) as [|patch_base [|patch_type [|]]];
    intros Hlen; py_unfold; cbn; eauto.
  contradiction Hlen. reflexivity.
Qed.

(** The loop over the patches stops at the first malformed pair, with the
    pairs before it applied. *)
Lemma for_each_patch_one_stops (pre : list string) (bad : string)
    (post : list string) (w : world) :
  Forall well_formed pre -> malformed bad ->
  exists msg,
    for_each (pre ++ bad :: post) patch_one w =
      (Raise (ValueError msg),
       set_agent (agent w ++ flat_map (wraps_of (BaseModel w)) pre) w).
Proof.
  intros Hpre Hbad. revert w.
  induction Hpre as [|patch pre Hpatch _ IH]; intros w; cbn.
  - destruct (patch_one_malformed bad w Hbad) as [msg Hrun].
    exists msg. py_unfold. rewrite Hrun, app_nil_r, set_agent_same.
    reflexivity.
  - py_unfold. rewrite (patch_one_well_formed patch w Hpatch).
    destruct (IH (set_agent (agent w ++ wraps_of (BaseModel w) patch) w))
      as [msg Hrun].
    exists msg. rewrite Hrun. cbn. rewrite <- app_assoc. reflexivity.
Qed.

Lemma for_each_patch_one_all (l : list string) (w : world) :
  Forall well_formed l ->
  for_each l patch_one w =
    (Return tt, set_agent (agent w ++ flat_map (wraps_of (BaseModel w)) l) w).
Proof.
  intros Hl. revert w.
  induction Hl as [|patch l Hpatch _ IH]; intros w; cbn.
  - rewrite app_nil_r, set_agent_same. reflexivity.
  - py_unfold. rewrite (patch_one_well_formed patch w Hpatch), IH. cbn.
    rewrite <- app_assoc. reflexivity.
Qed.

Lemma well_formed_dec (patch : string) :
  {well_formed patch} + {malformed patch}.
Proof.
  unfold well_formed, malformed.
  destruct (Nat.eq_dec (length (PyStr.split ":" patch)) 2); auto.
Qed.

Lemma first_malformed (l : list string) :
  Forall well_formed l \/
  exists pre bad post,
    l = (pre ++ bad :: post)%list /\ Forall well_formed pre /\ malformed bad.
Proof.
  induction l as [|patch l IH].
  - left. constructor.
  - destruct (well_formed_dec patch) as [Hwf|Hbad].
    + destruct IH as [Hall|(pre & bad & post & -> & Hpre & Hbad)].
      * left. constructor; assumption.
      * right. exists (patch :: pre), bad, post. repeat split; auto.
    + right. exists [], patch, l. repeat split; auto.
Qed.

(** A string without the separator splits into itself alone. *)
Lemma contains_split (sep : ascii) (s : string) :
  PyStr.contains sep s = false -> PyStr.split sep s = [s].
Proof.
  induction s as [|c s IH]; cbn; [reflexivity|].
  intros H. apply orb_false_iff in H as [Hc Hs].
  rewrite Hc, (IH Hs). reflexivity.
Qed.

Lemma read_nr_odoo_trace_run (w : world) :
  read_nr_odoo_trace w = (Return (nr_odoo_trace w), w).
Proof. reflexivity. Qed.

Lemma nr_odoo_trace_configured (w : world) (s : string) :
  configured_trace w s -> nr_odoo_trace w = PStr s.
Proof. unfold nr_odoo_trace. intros [-> | [-> ->]]; reflexivity. Qed.

Lemma patch_methods_text (w : world) (s : string) :
  configured_trace w s ->
  patch_methods w =
    trace_patches (PyStr.split "," (PyStr.strip s))
      (set_calls (calls w ++ [proc_patch_methods]) w).
Proof.
  intros Hs. unfold patch_methods, trace_patches.
  unfold enter, modify. unfold mbind at 1 2. unfold Py_bind at 1 2.
  rewrite read_nr_odoo_trace_run.
  replace (nr_odoo_trace (set_calls (calls w ++ [proc_patch_methods]) w))
    with (PStr s) by (symmetry; apply nr_odoo_trace_configured, Hs).
  reflexivity.
Qed.

Lemma patch_methods_none (w : world) :
  nr_odoo_trace w = PNone ->
  patch_methods w =
    trace_patches ["odoo.models.BaseModel:limited"]
      (set_calls (calls w ++ [proc_patch_methods]) w).
Proof.
  intros Hnone. unfold patch_methods, trace_patches.
  unfold enter, modify. unfold mbind at 1 2. unfold Py_bind at 1 2.
  rewrite read_nr_odoo_trace_run.
  replace (nr_odoo_trace (set_calls (calls w ++ [proc_patch_methods]) w))
    with PNone by (symmetry; exact Hnone).
  reflexivity.
Qed.

Lemma trace_patches_stops (pre : list string) (bad : string)
    (post : list string) (w : world) :
  Forall well_formed pre -> malformed bad ->
  exists msg,
    trace_patches (pre ++ bad :: post) w =
      (Return tt,
       set_agent (agent w ++ flat_map (wraps_of (BaseModel w)) pre)
         (set_log
            (log w ++ [(INFO, ApplyingTracingTo (pre ++ bad :: post));
                       (ERROR, OfException (ValueError msg))]) w)).
Proof.
  intros Hpre Hbad. unfold trace_patches.
  destruct (for_each_patch_one_stops pre bad post
              (set_log (log w ++ [(INFO, ApplyingTracingTo (pre ++ bad :: post))]) w)
              Hpre Hbad) as [msg Hrun].
  exists msg. py_unfold. rewrite Hrun. cbn. rewrite <- app_assoc. reflexivity.
Qed.

Lemma trace_patches_all (l : list string) (w : world) :
  Forall well_formed l ->
  trace_patches l w =
    (Return tt,
     set_agent (agent w ++ flat_map (wraps_of (BaseModel w)) l)
       (set_log (log w ++ [(INFO, ApplyingTracingTo l)]) w)).
Proof.
  intros Hl. unfold trace_patches. py_unfold.
  rewrite (for_each_patch_one_all l _ Hl). reflexivity.
Qed.

(** Whatever the list of patches, the [try] statement returns. *)
Lemma trace_patches_returns (l : list string) (w : world) :
  exists wraps errors,
    trace_patches l w =
      (Return tt,
       set_agent (agent w ++ wraps)
         (set_log (log w ++ (INFO, ApplyingTracingTo l) :: errors) w)).
Proof.
  destruct (first_malformed l) as [Hall|(pre & bad & post & -> & Hpre & Hbad)].
  - eexists _, []. apply trace_patches_all, Hall.
  - destruct (trace_patches_stops pre bad post w Hpre Hbad) as [msg Hrun].
    eexists _, [_]. exact Hrun.
Qed.

(** C6. With neither the environment variable nor the configuration key
    set, [patch_methods] announces the default patch and asks the agent to
    wrap exactly the eight methods create, read, read_group, write, unlink,
    search, search_read and search_count of [BaseModel], in this order, and
    returns. *)
Theorem patch_methods_default (w : world) :
  environ w !! "NEW_RELIC_ODOO_TRACE" = None ->
  config w !! "new_relic_odoo_trace" = None ->
  patch_methods w =
    (Return tt,
     methods_traced ["odoo.models.BaseModel:limited"]
       (map (fun name => WrapFunctionTrace "odoo.models" ("BaseModel." ++ name))
          ["create"; "read"; "read_group"; "write"; "unlink";
           "search"; "search_read"; "search_count"])
       [] w).
Proof.
  intros Henv Hconf. rewrite patch_methods_none.
  - rewrite trace_patches_all by (repeat constructor). reflexivity.
  - unfold nr_odoo_trace. rewrite Henv, Hconf. reflexivity.
Qed.

Lemma patch_methods_default_witness :
  patch_methods startup =
    (Return tt,
     methods_traced ["odoo.models.BaseModel:limited"]
       (map (fun name => WrapFunctionTrace "odoo.models" ("BaseModel." ++ name))
          ["create"; "read"; "read_group"; "write"; "unlink";
           "search"; "search_read"; "search_count"])
       [] startup).
Proof. apply (patch_methods_default startup); reflexivity. Defined.

Lemma BaseModel_paths_sound (cls : list (string * bool)) (prefix : string) :
  exists names,
    BaseModel_paths cls prefix = map (fun func => "BaseModel." ++ func) names /\
    Forall (fun func => In func (dir cls) /\
                        callable_getattr cls func = true /\
                        PyStr.startswith func prefix = false) names.
Proof.
  unfold BaseModel_paths. eexists. split; [reflexivity|].
  apply List.Forall_forall. intros func Hin.
  apply List.filter_In in Hin as [Hdir Hkeep].
  apply andb_true_iff in Hkeep as [Hcall Hpre].
  apply negb_true_iff in Hpre. auto.
Qed.

(** C7. With the trace specification "odoo.models.BaseModel:public",
    [patch_methods] returns, and every method it asks the agent to wrap is
    [BaseModel.<func>] for an attribute name [func] of [BaseModel] whose
    value is callable and which does not start with an underscore. *)
Theorem patch_methods_public (w : world) :
  configured_trace w "odoo.models.BaseModel:public" ->
  exists names,
    patch_methods w =
      (Return tt,
       methods_traced ["odoo.models.BaseModel:public"]
         (map (fun func => WrapFunctionTrace "odoo.models" ("BaseModel." ++ func))
            names)
         [] w) /\
    Forall (fun func => In func (dir (BaseModel w)) /\
                        callable_getattr (BaseModel w) func = true /\
                        PyStr.startswith func "_" = false) names.
Proof.
  intros Hs.
  destruct (BaseModel_paths_sound (BaseModel w) "_")
    as (names & Hpaths & Hnames).
  exists names. split; [|exact Hnames].
  rewrite (patch_methods_text w _ Hs).
  change (PyStr.split "," (PyStr.strip "odoo.models.BaseModel:public"))
    with ["odoo.models.BaseModel:public"].
  rewrite trace_patches_all by (repeat constructor).
  unfold methods_traced. cbn [flat_map]. unfold wraps_of.
  change (PyStr.split ":" "odoo.models.BaseModel:public")
    with ["odoo.models.BaseModel"; "public"].
  unfold resolve. cbn -[BaseModel_paths].
  rewrite Hpaths, map_map, app_nil_r. reflexivity.
Qed.

Lemma patch_methods_public_witness :
  exists names,
    patch_methods tracing_public =
      (Return tt,
       methods_traced ["odoo.models.BaseModel:public"]
         (map (fun func => WrapFunctionTrace "odoo.models" ("BaseModel." ++ func))
            names)
         [] tracing_public) /\
    Forall (fun func => In func (dir (BaseModel tracing_public)) /\
                        callable_getattr (BaseModel tracing_public) func = true /\
                        PyStr.startswith func "_" = false) names.
Proof.
  apply (patch_methods_public tracing_public).
  left. vm_compute. reflexivity.
Defined.

(** C8. Whatever string the trace specification is, [patch_methods] returns:
    no exception reaches its caller.  When a pair of the specification is
    malformed, and a pair without ':' is, the pairs before the first
    malformed one have been applied, the [ValueError] of the unpacking has
    been logged, and the pairs after it are not looked at. *)
Theorem patch_methods_malformed (w : world) (s : string) :
  configured_trace w s ->
  (exists wraps errors,
     patch_methods w =
       (Return tt,
        methods_traced (PyStr.split "," (PyStr.strip s)) wraps errors w)) /\
  (forall (pre : list string) (bad : string) (post : list string),
     PyStr.split "," (PyStr.strip s) = (pre ++ bad :: post)%list ->
     Forall well_formed pre -> malformed bad ->
     exists msg,
       patch_methods w =
         (Return tt,
          methods_traced (pre ++ bad :: post)
            (flat_map (wraps_of (BaseModel w)) pre)
            [(ERROR, OfException (ValueError msg))] w)) /\
  (forall patch : string, PyStr.contains ":" patch = false -> malformed patch).
Proof.
  intros Hs. rewrite (patch_methods_text w s Hs). repeat split.
  - destruct (trace_patches_returns (PyStr.split "," (PyStr.strip s))
                (set_calls (calls w ++ [proc_patch_methods]) w))
      as (wraps & errors & Hrun).
    exists wraps, errors. rewrite Hrun. reflexivity.
  - intros pre bad post -> Hpre Hbad.
    destruct (trace_patches_stops pre bad post
                (set_calls (calls w ++ [proc_patch_methods]) w) Hpre Hbad)
      as [msg Hrun].
    exists msg. rewrite Hrun. reflexivity.
  - intros patch Hsep. unfold malformed.
    rewrite (contains_split _ _ Hsep). cbn. lia.
Qed.

Lemma patch_methods_malformed_witness :
  exists msg,
    patch_methods tracing_malformed =
      (Return tt,
       methods_traced ["odoo.models.BaseModel:limited"; "odoo.models.BaseModel"]
         (flat_map (wraps_of (BaseModel tracing_malformed))
            ["odoo.models.BaseModel:limited"])
         [(ERROR, OfException (ValueError msg))] tracing_malformed).
Proof.
  assert (Hs : configured_trace tracing_malformed
                 "odoo.models.BaseModel:limited,odoo.models.BaseModel").
  { left. vm_compute. reflexivity. }
  apply (proj1 (proj2 (patch_methods_malformed tracing_malformed _ Hs))
           ["odoo.models.BaseModel:limited"] "odoo.models.BaseModel" []).
  - vm_compute. reflexivity.
  - repeat constructor.
  - apply (proj2 (proj2 (patch_methods_malformed tracing_malformed _ Hs))).
    vm_compute. reflexivity.
Defined.

(** C10. With the trace specification set to the empty string,
    [patch_methods] returns and asks the agent to wrap nothing: the one
    empty pair fails to unpack, and the [ValueError] is logged. *)
Theorem patch_methods_empty_string (w : world) :
  configured_trace w "" ->
  patch_methods w =
    (Return tt,
     methods_traced [""] []
       [(ERROR,
         OfException
           (ValueError "not enough values to unpack (expected 2, got 1)"))]
       w).
Proof.
  intros Hs. rewrite (patch_methods_text w "" Hs).
  unfold trace_patches, methods_traced. repeat (py_unfold; cbn).
  rewrite app_nil_r, <- app_assoc. destruct w; reflexivity.
Qed.

Lemma patch_methods_empty_string_witness :
  patch_methods tracing_empty =
    (Return tt,
     methods_traced [""] []
       [(ERROR,
         OfException
           (ValueError "not enough values to unpack (expected 2, got 1)"))]
       tracing_empty).
Proof.
  apply (patch_methods_empty_string tracing_empty).
  right. split; vm_compute; reflexivity.
Defined.

(** ** The error handler wrapper *)

(** C4. Without an active monitoring transaction the wrapped [handle_error]
    is the original handler: called with the same arguments, it gives the
    same result and leaves the same state, so the agent hears of nothing
    the original handler did not report itself. *)
Theorem handle_error_pass_through (callable_name : pyobj -> string)
    (wrapped : handler) (args : list pyobj) (kwargs : list (string * pyobj))
    (w : world) :
  current_transaction w = None ->
  _nr_wrapper_handle_error callable_name wrapped args kwargs w =
    wrapped args kwargs w.
Proof.
  intros Hnone. unfold _nr_wrapper_handle_error. py_unfold.
  rewrite Hnone. reflexivity.
Qed.

Lemma handle_error_pass_through_witness :
  _nr_wrapper_handle_error class_name framework_handle_error
    [Dispatcher "HttpDispatcher"; ExcObject not_found] [] unmonitored_request =
  framework_handle_error
    [Dispatcher "HttpDispatcher"; ExcObject not_found] [] unmonitored_request.
Proof.
  apply (handle_error_pass_through class_name framework_handle_error).
  reflexivity.
Defined.

(** C5. With an active monitoring transaction and an exception being
    handled, the wrapped [handle_error] first reports the error to the
    transaction, and the status code it reports is the exception's [code]
    when the exception is an [HTTPException] and [None] when it is not,
    whether or not that exception has a [code] of its own; [status_code]
    itself computes just that. *)
Theorem handle_error_status_code (callable_name : pyobj -> string)
    (wrapped : handler) (args : list pyobj) (kwargs : list (string * pyobj))
    (w : world) (transaction exc : string) (value : exc_value) (tb : string) :
  current_transaction w = Some transaction ->
  exc_info w = Some (exc, value, tb) ->
  _nr_wrapper_handle_error callable_name wrapped args kwargs w =
    (arg ← getitem_args args 1;
     with_FunctionTrace transaction (callable_name arg) (wrapped args kwargs))
      (set_agent
         (agent w ++
          [NoticeError transaction
             match value with
             | HTTPException _ c => c
             | OtherException _ _ => PNone
             end])
         w) /\
  status_code exc value tb =
    match value with
    | HTTPException _ c => c
    | OtherException _ _ => PNone
    end.
Proof.
  intros Htxn Hexc. split.
  - unfold _nr_wrapper_handle_error, notice_error. py_unfold.
    rewrite Htxn, Hexc. destruct value; reflexivity.
  - destruct value; reflexivity.
Qed.

Lemma handle_error_status_code_witness :
  _nr_wrapper_handle_error class_name framework_handle_error
    [Dispatcher "HttpDispatcher"; ExcObject not_found] [] monitored_request =
    (arg ← getitem_args [Dispatcher "HttpDispatcher"; ExcObject not_found] 1;
     with_FunctionTrace "WebTransaction" (class_name arg)
       (framework_handle_error
          [Dispatcher "HttpDispatcher"; ExcObject not_found] []))
      (set_agent
         (agent monitored_request ++ [NoticeError "WebTransaction" (PInt 404)])
         monitored_request) /\
  status_code "NotFound" not_found "traceback" = PInt 404 /\
  agent
    (snd (_nr_wrapper_handle_error class_name framework_handle_error
            [Dispatcher "HttpDispatcher"; ExcObject foreign_http_error] []
            monitored_foreign_error)) =
    (agent monitored_foreign_error ++
     [NoticeError "WebTransaction" PNone;
      EnterFunctionTrace "WebTransaction" "HTTPError";
      ExitFunctionTrace "WebTransaction" "HTTPError"])%list /\
  status_code "HTTPError" foreign_http_error "traceback" = PNone.
Proof.
  split; [|split; [|split]].
  - apply (handle_error_status_code class_name framework_handle_error
             [Dispatcher "HttpDispatcher"; ExcObject not_found] []
             monitored_request "WebTransaction" "NotFound" not_found
             "traceback"); reflexivity.
  - apply (handle_error_status_code class_name framework_handle_error
             [Dispatcher "HttpDispatcher"; ExcObject not_found] []
             monitored_request "WebTransaction" "NotFound" not_found
             "traceback"); reflexivity.
  - rewrite (proj1 (handle_error_status_code class_name framework_handle_error
               [Dispatcher "HttpDispatcher"; ExcObject foreign_http_error] []
               monitored_foreign_error "WebTransaction" "HTTPError"
               foreign_http_error "traceback" eq_refl eq_refl)).
    reflexivity.
  - apply (handle_error_status_code class_name framework_handle_error
             [Dispatcher "HttpDispatcher"; ExcObject foreign_http_error] []
             monitored_foreign_error "WebTransaction" "HTTPError"
             foreign_http_error "traceback"); reflexivity.
Defined.

(** [setup_error_handling] puts the wrapper around both dispatchers'
    handlers: what [handle_error] stands for afterwards is
    [_nr_wrapper_handle_error] of what it stood for before. *)
Lemma setup_error_handling_wraps (callable_name : pyobj -> string)
    (original : string -> handler) (w : world) :
  exists w',
    setup_error_handling w = (Return tt, w') /\
    denote callable_name original (HttpDispatcher_handle_error w') =
      _nr_wrapper_handle_error callable_name
        (denote callable_name original (HttpDispatcher_handle_error w)) /\
    denote callable_name original (JsonRPCDispatcher_handle_error w') =
      _nr_wrapper_handle_error callable_name
        (denote callable_name original (JsonRPCDispatcher_handle_error w)).
Proof.
  unfold setup_error_handling. py_unfold. cbn.
  eexists. repeat split.
Qed.

(** ** [post_load] *)

Lemma initialize_agent_frame (w : world) :
  agent_starts w = true ->
  exists w',
    initialize_agent w = (Return tt, w') /\
    calls w' = (calls w ++ [proc_initialize_agent])%list /\
    Application w' = Application w /\
    same_settings w w'.
Proof.
  intros Hstarts. destruct (initialize_agent_effect w) as [msgs ->].
  rewrite (agent_starts_returns w Hstarts).
  eexists. repeat split.
Qed.

Lemma patch_wsgi_frame (w : world) :
  exists w',
    patch_wsgi w = (Return (negb (marker_set w)), w') /\
    calls w' = (calls w ++ [proc_patch_wsgi])%list /\
    same_settings w w'.
Proof.
  unfold marker_set, patch_wsgi, patch_wsgi_fallback, same_settings,
    App.getattr_nr_instrumented, App.setattr_call.
  py_unfold. cbn.
  destruct (App.nr_instrumented (Application w)) as [v|]; cbn;
    [destruct (truthy v); cbn; [eexists; repeat split|]|].
  all: destruct (App.set_call _ _) as [a'|]; cbn;
    [eexists; repeat split|].
  all: destruct (server w) as [srv|]; cbn;
    [destruct (App.nr_instrumented (app srv)) as [v0|]; cbn;
       [destruct (truthy v0); cbn|] |].
  all: destruct (truthy (workers w)); cbn; eexists; repeat split.
Qed.

Lemma patch_bus_controller_frame (w : world) :
  exists w',
    patch_bus_controller w = (Return tt, w') /\
    calls w' = (calls w ++ [proc_patch_bus_controller])%list /\
    same_settings w w'.
Proof.
  unfold patch_bus_controller, import_bus_controllers, same_settings.
  py_unfold. cbn.
  destruct (bus_importable w); cbn; eexists; repeat split.
Qed.

Lemma patch_methods_frame (w : world) :
  parses (nr_odoo_trace w) = true ->
  exists w',
    patch_methods w = (Return tt, w') /\
    calls w' = (calls w ++ [proc_patch_methods])%list.
Proof.
  intros Hp.
  assert (Hrun : exists l, patch_methods w =
            trace_patches l (set_calls (calls w ++ [proc_patch_methods]) w)).
  { destruct (nr_odoo_trace w) as [| | |s] eqn:Hv; try discriminate.
    - eexists. apply patch_methods_none, Hv.
    - exists (PyStr.split "," (PyStr.strip s)).
      unfold patch_methods, trace_patches.
      unfold enter, modify. unfold mbind at 1 2. unfold Py_bind at 1 2.
      rewrite read_nr_odoo_trace_run.
      change (nr_odoo_trace (set_calls (calls w ++ [proc_patch_methods]) w))
        with (nr_odoo_trace w).
      rewrite Hv. reflexivity. }
  destruct Hrun as [l ->].
  destruct (trace_patches_returns l (set_calls (calls w ++ [proc_patch_methods]) w))
    as (wraps & errors & ->).
  eexists. split; reflexivity.
Qed.

Lemma patch_methods_raises (w : world) :
  parses (nr_odoo_trace w) = false ->
  exists obj,
    patch_methods w =
      (Raise (AttributeError obj "strip"),
       set_calls (calls w ++ [proc_patch_methods]) w).
Proof.
  intros Hp. unfold patch_methods.
  unfold enter, modify. unfold mbind at 1 2. unfold Py_bind at 1 2.
  rewrite read_nr_odoo_trace_run.
  change (nr_odoo_trace (set_calls (calls w ++ [proc_patch_methods]) w))
    with (nr_odoo_trace w).
  destruct (nr_odoo_trace w); try discriminate; eexists; reflexivity.
Qed.

Lemma nr_odoo_trace_same (w w' : world) :
  same_settings w w' -> nr_odoo_trace w' = nr_odoo_trace w.
Proof. unfold nr_odoo_trace. intros [-> ->]. reflexivity. Qed.

Lemma same_settings_trans (w1 w2 w3 : world) :
  same_settings w1 w2 -> same_settings w2 w3 -> same_settings w1 w3.
Proof. unfold same_settings. intros [? ?] [? ?]. split; congruence. Qed.

(** With [stop_after_init] truthy, [post_load] leaves the state as it is:
    no procedure is entered. *)
Lemma post_load_stopped (w : world) :
  stops_after_init w = true -> post_load w = (Return tt, w).
Proof.
  unfold stops_after_init, post_load. py_unfold. intros ->. reflexivity.
Qed.

(** Otherwise, and with an agent that starts, the bootstrapper and the
    dispatcher patcher are entered, in
    this order, and when the dispatcher patcher returns true the bus
    patcher and the method tracer follow; the error handler patcher follows
    them when the method tracer returns, which it does when the trace
    specification is a string or absent. *)
Lemma post_load_calls (w : world) :
  stops_after_init w = false ->
  agent_starts w = true ->
  exists r w',
    post_load w = (r, w') /\
    calls w' =
      (calls w ++
       proc_initialize_agent :: proc_patch_wsgi ::
       if marker_set w then []
       else proc_patch_bus_controller :: proc_patch_methods ::
            if parses (nr_odoo_trace w) then [proc_setup_error_handling]
            else [])%list /\
    (parses (nr_odoo_trace w) = true -> r = Return tt).
Proof.
  intros Hstop Hstarts. unfold stops_after_init in Hstop.
  unfold post_load. py_unfold. rewrite Hstop.
  destruct (initialize_agent_frame w Hstarts) as (w1 & -> & Hc1 & Happ & Hs1).
  destruct (patch_wsgi_frame w1) as (w2 & -> & Hc2 & Hs2).
  assert (Hm : marker_set w1 = marker_set w).
  { unfold marker_set. rewrite Happ. reflexivity. }
  rewrite Hm. destruct (marker_set w); cbn.
  - eexists _, _. split; [reflexivity|]. split; [|reflexivity].
    rewrite Hc2, Hc1, <- app_assoc. reflexivity.
  - set (w3 := set_log _ w2).
    destruct (patch_bus_controller_frame w3) as (w4 & -> & Hc4 & Hs4).
    assert (Hv : nr_odoo_trace w4 = nr_odoo_trace w).
    { apply nr_odoo_trace_same.
      apply (same_settings_trans w w1 w4 Hs1).
      apply (same_settings_trans w1 w2 w4 Hs2). exact Hs4. }
    assert (Hc : calls w4 =
              (calls w ++ [proc_initialize_agent; proc_patch_wsgi;
                           proc_patch_bus_controller])%list).
    { rewrite Hc4. subst w3. cbn. rewrite Hc2, Hc1, <- !app_assoc. reflexivity. }
    destruct (parses (nr_odoo_trace w)) eqn:Hp.
    + destruct (patch_methods_frame w4) as (w5 & -> & Hc5);
        [rewrite Hv; exact Hp|].
      unfold setup_error_handling. py_unfold. cbn.
      eexists _, _. split; [reflexivity|]. split; [|reflexivity].
      cbn. rewrite Hc5, Hc, <- !app_assoc. reflexivity.
    + destruct (patch_methods_raises w4) as (obj & ->);
        [rewrite Hv; exact Hp|].
      eexists _, _. split; [reflexivity|]. split; [|discriminate].
      cbn. rewrite Hc, <- !app_assoc. reflexivity.
Qed.

(** C3. The configuration file line [new_relic_odoo_trace = False] reaches
    the module as the boolean [False].  [post_load] then does not stop
    early, [patch_wsgi] returns true, and the bus patcher and the method
    tracer are entered; but the method tracer raises [AttributeError] on
    [nr_odoo_trace.strip()], before its [try] statement, the exception
    leaves [post_load], and [setup_error_handling] is never entered. *)
Theorem post_load_skips_error_handling :
  stops_after_init tracing_false = false /\
  fst (patch_wsgi (snd (initialize_agent tracing_false))) = Return true /\
  fst (post_load tracing_false) = Raise (AttributeError "bool" "strip") /\
  calls (snd (post_load tracing_false)) =
    [proc_initialize_agent; proc_patch_wsgi; proc_patch_bus_controller;
     proc_patch_methods].
Proof. vm_compute. repeat split. Qed.

(** * Further properties *)

(** ** The two branches of [patch_wsgi] *)

Lemma set_call_readonly (c : callable) (a : application) :
  App.set_call c a = None <-> call_is_readonly a = true.
Proof.
  induction a as [name c0 ro m|a IH m]; cbn.
  - destruct ro; split; congruence.
  - destruct (App.set_call c a); split; try congruence.
    + intros H. apply IH in H. discriminate.
    + intros H. apply IH. exact H.
Qed.

Lemma call_set_call (c : callable) (a a' : application) :
  App.set_call c a = Some a' -> App.call a' = c.
Proof.
  revert a'. induction a as [name c0 ro m|a IH m]; cbn; intros a'.
  - destruct ro; [discriminate|]. intros [= <-]. reflexivity.
  - destruct (App.set_call c a) as [a''|]; [|discriminate].
    intros [= <-]. cbn. apply IH. reflexivity.
Qed.

Lemma call_set_nr_instrumented (v : pyval) (a : application) :
  App.call (App.set_nr_instrumented v a) = App.call a.
Proof. destruct a; reflexivity. Qed.

Lemma marker_unset_value (w : world) :
  marker_set w = false ->
  truthy match App.nr_instrumented (Application w) with
         | Some v => v
         | None => PBool false
         end = false.
Proof.
  unfold marker_set.
  destruct (App.nr_instrumented (Application w)); [auto|reflexivity].
Qed.

Lemma patch_wsgi_in_place_run (w : world) (a' : application) :
  marker_set w = false ->
  App.set_call (WrappedCallable (App.call (Application w))) (Application w) = Some a' ->
  patch_wsgi w =
    (Return true,
     set_Application (App.set_nr_instrumented (PBool true) a')
       (set_calls (calls w ++ [proc_patch_wsgi]) w)).
Proof.
  intros Hm Hset. apply marker_unset_value in Hm.
  unfold patch_wsgi, App.getattr_nr_instrumented, App.setattr_call,
    newrelic_agent.WSGIApplicationWrapper_callable.
  py_unfold. cbn.
  destruct (App.nr_instrumented (Application w)) as [v|]; cbn;
    rewrite ?Hm; cbn; rewrite Hset; reflexivity.
Qed.

Lemma patch_wsgi_fallback_run (w : world) :
  marker_set w = false ->
  call_is_readonly (Application w) = true ->
  patch_wsgi w =
    (Return true,
     set_Application (WrappedApplication (Application w) (Some (PBool true)))
       (set_log
          (log w ++
           if truthy (workers w) then []
           else [(WARNING,
                  OfException
                    (AttributeError (App.describe (Application w)) "__call__"));
                 (WARNING, Text failed_to_patch)])
          (set_server (fallback_server (server w))
             (set_calls (calls w ++ [proc_patch_wsgi]) w)))).
Proof.
  intros Hm Hro. apply marker_unset_value in Hm.
  apply (set_call_readonly (WrappedCallable (App.call (Application w)))) in Hro.
  unfold patch_wsgi, patch_wsgi_fallback, App.getattr_nr_instrumented,
    App.setattr_call, newrelic_agent.WSGIApplicationWrapper_callable,
    newrelic_agent.WSGIApplicationWrapper, fallback_server.
  py_unfold. cbn.
  destruct (App.nr_instrumented (Application w)) as [v|]; cbn;
    rewrite ?Hm; cbn; rewrite Hro; cbn.
  all: destruct (server w) as [srv|] eqn:Hsrv; cbn;
    [destruct (App.nr_instrumented (app srv)) as [v0|]; cbn;
       [destruct (truthy v0); cbn|] |].
  all: destruct (truthy (workers w)); cbn; rewrite ?app_nil_r, <- ?app_assoc.
  all: destruct w; cbn in *; subst; reflexivity.
Qed.

Lemma fallback_server_idempotent (s : option server_obj) :
  fallback_server (fallback_server s) = fallback_server s.
Proof.
  destruct s as [srv|]; [|reflexivity]. cbn.
  destruct (App.nr_instrumented (app srv)) as [v|] eqn:Hv; cbn.
  - destruct (truthy v) eqn:Ht; cbn; [rewrite Hv, Ht|]; reflexivity.
  - reflexivity.
Qed.

(** X1. When [http.Application] is a class whose [__call__] can be
    assigned and which is not marked, [patch_wsgi] returns true, leaves the
    class with exactly one wrapper more around the [__call__] it had and
    with the marker [True], and logs nothing and calls nothing of the
    agent's recorded interface. *)
Theorem patch_wsgi_wraps_call_once (w : world) (name : string)
    (c : callable) (m : option pyval) :
  Application w = AppObject name c false m ->
  marker_set w = false ->
  exists w',
    patch_wsgi w = (Return true, w') /\
    Application w' =
      AppObject name (WrappedCallable c) false (Some (PBool true)) /\
    log w' = log w /\ agent w' = agent w.
Proof.
  intros Happ Hm.
  assert (Hset : App.set_call (WrappedCallable (App.call (Application w)))
                   (Application w) =
                 Some (AppObject name (WrappedCallable c) false m)).
  { rewrite Happ. reflexivity. }
  eexists. split; [apply (patch_wsgi_in_place_run w _ Hm Hset)|].
  repeat split.
Qed.

Lemma patch_wsgi_wraps_call_once_witness :
  exists w',
    patch_wsgi startup = (Return true, w') /\
    Application w' =
      AppObject "odoo.http.Application"
        (WrappedCallable (Method "Application.__call__")) false
        (Some (PBool true)) /\
    log w' = log startup /\ agent w' = agent startup.
Proof.
  apply (patch_wsgi_wraps_call_once startup "odoo.http.Application"
           (Method "Application.__call__") None); reflexivity.
Defined.

(** X2. When the marker is not set and the assignment to [__call__] raises,
    [patch_wsgi] replaces [http.Application] by a marked wrapper around it,
    with the callable itself untouched, and wraps and marks [server.app]
    unless there is no server or its application is marked already; running
    the server step again on the result changes nothing. *)
Theorem patch_wsgi_fallback_objects (w : world) :
  marker_set w = false ->
  call_is_readonly (Application w) = true ->
  exists w',
    patch_wsgi w = (Return true, w') /\
    Application w' = WrappedApplication (Application w) (Some (PBool true)) /\
    App.call (Application w') = App.call (Application w) /\
    server w' = fallback_server (server w) /\
    fallback_server (server w') = server w'.
Proof.
  intros Hm Hro. eexists.
  split; [apply (patch_wsgi_fallback_run w Hm Hro)|].
  cbn. repeat split. apply fallback_server_idempotent.
Qed.

Lemma patch_wsgi_fallback_objects_witness :
  exists w',
    patch_wsgi behind_sentry = (Return true, w') /\
    Application w' =
      WrappedApplication (Application behind_sentry) (Some (PBool true)) /\
    App.call (Application w') = App.call (Application behind_sentry) /\
    server w' = fallback_server (server behind_sentry) /\
    fallback_server (server w') = server w'.
Proof. apply (patch_wsgi_fallback_objects behind_sentry); reflexivity. Defined.

(** X3. In the fallback, [patch_wsgi] logs its two warnings, the
    [AttributeError] and the advice to load the module server wide, exactly
    when the [workers] option is falsy, and logs nothing otherwise. *)
Theorem patch_wsgi_fallback_warns (w : world) :
  marker_set w = false ->
  call_is_readonly (Application w) = true ->
  exists w',
    patch_wsgi w = (Return true, w') /\
    log w' =
      (log w ++
       if truthy (workers w) then []
       else [(WARNING,
              OfException
                (AttributeError (App.describe (Application w)) "__call__"));
             (WARNING, Text failed_to_patch)])%list.
Proof.
  intros Hm Hro. eexists.
  split; [apply (patch_wsgi_fallback_run w Hm Hro)|]. reflexivity.
Qed.

Lemma patch_wsgi_fallback_warns_witness :
  exists w',
    patch_wsgi behind_sentry = (Return true, w') /\
    log w' =
      (log behind_sentry ++
       if truthy (workers behind_sentry) then []
       else [(WARNING,
              OfException
                (AttributeError (App.describe (Application behind_sentry))
                   "__call__"));
             (WARNING, Text failed_to_patch)])%list.
Proof. apply (patch_wsgi_fallback_warns behind_sentry); reflexivity. Defined.

(** X4. [patch_bus_controller] never raises.  When the bus controllers can
    be imported it asks the agent for one background task wrapper, on
    [Websocket._dispatch_bus_notifications] of [odoo.addons.bus.websocket];
    when the import fails it asks the agent for nothing and logs the
    [ImportError]. *)
Theorem patch_bus_controller_best_effort (w : world) :
  patch_bus_controller w =
    (Return tt,
     let w1 := set_calls (calls w ++ [proc_patch_bus_controller]) w in
     if bus_importable w then
       set_log
         (log w ++ [(INFO, Text "attaching to bus controller");
                    (INFO, Text "finished attaching to bus controller")])
         (set_agent
            (agent w ++
             [WrapBackgroundTask "odoo.addons.bus.websocket"
                "Websocket._dispatch_bus_notifications"])
            w1)
     else
       set_log
         (log w ++ [(INFO, Text "attaching to bus controller");
                    (ERROR,
                     OfException
                       (ImportError "odoo.addons.bus.controllers.main"))])
         w1).
Proof.
  unfold patch_bus_controller, import_bus_controllers. py_unfold. cbn.
  destruct (bus_importable w); cbn; rewrite <- app_assoc; reflexivity.
Qed.

(** ** What the method tracer does, in full *)

Lemma split_length (sep : ascii) (s : string) :
  length (PyStr.split sep s) = S (count_char sep s).
Proof.
  induction s as [|c s IH]; cbn; [reflexivity|].
  destruct (Ascii.eqb c sep); cbn.
  - rewrite IH. reflexivity.
  - destruct (PyStr.split sep s) as [|piece rest]; cbn in *; [discriminate|].
    exact IH.
Qed.

Lemma well_formed_count (patch : string) :
  well_formed patch <-> count_char ":" patch = 1.
Proof. unfold well_formed. rewrite split_length. lia. Qed.

Lemma unpack_error_well_formed (patch : string) :
  well_formed patch <-> unpack_error patch = None.
Proof.
  unfold well_formed, unpack_error.
  destruct (PyStr.split ":" patch) as [|a [|b [|c l]]]; cbn;
    split; intros H; try discriminate; reflexivity.
Qed.

Lemma applied_all (l : list string) : Forall well_formed l -> applied l = l.
Proof.
  induction 1 as [|patch l Hp _ IH]; cbn; [reflexivity|].
  apply unpack_error_well_formed in Hp. rewrite Hp, IH. reflexivity.
Qed.

Lemma first_error_all (l : list string) :
  Forall well_formed l -> first_error l = None.
Proof.
  induction 1 as [|patch l Hp _ IH]; cbn; [reflexivity|].
  apply unpack_error_well_formed in Hp. rewrite Hp. exact IH.
Qed.

(** The loop of [patch_methods] against its summary. *)
Lemma for_each_patch_one_run (l : list string) (w : world) :
  for_each l patch_one w =
    (match first_error l with
     | None => Return tt
     | Some e => Raise e
     end,
     set_agent (agent w ++ flat_map (wraps_of (BaseModel w)) (applied l)) w).
Proof.
  revert w. induction l as [|patch l IH]; intros w; cbn.
  - rewrite app_nil_r, set_agent_same. reflexivity.
  - destruct (unpack_error patch) as [e|] eqn:He.
    + cbn. rewrite app_nil_r, set_agent_same.
      unfold patch_one, unpack_error in *. py_unfold.
      destruct (PyStr.split ":" patch) as [|a [|b [|c l']]]; cbn;
        try discriminate; injection He as <-; reflexivity.
    + apply unpack_error_well_formed in He.
      py_unfold. rewrite (patch_one_well_formed patch w He), IH. cbn.
      rewrite <- app_assoc. reflexivity.
Qed.

Lemma trace_patches_run (l : list string) (w : world) :
  trace_patches l w =
    (Return tt,
     set_agent (agent w ++ flat_map (wraps_of (BaseModel w)) (applied l))
       (set_log
          (log w ++ (INFO, ApplyingTracingTo l) ::
           match first_error l with
           | None => []
           | Some e => [(ERROR, OfException e)]
           end) w)).
Proof.
  unfold trace_patches. py_unfold. rewrite for_each_patch_one_run. cbn.
  destruct (first_error l); cbn; rewrite <- ?app_assoc; reflexivity.
Qed.

Lemma patch_methods_parsed (w : world) :
  parses (nr_odoo_trace w) = true ->
  patch_methods w = (Return tt, patch_methods_result w).
Proof.
  intros Hp. unfold patch_methods_result.
  destruct (nr_odoo_trace w) as [| | |s] eqn:Hv; try discriminate.
  - rewrite (patch_methods_none w Hv), trace_patches_run. reflexivity.
  - unfold patch_methods. fold trace_patches.
    unfold enter, modify. unfold mbind at 1 2. unfold Py_bind at 1 2.
    rewrite read_nr_odoo_trace_run.
    change (nr_odoo_trace (set_calls (calls w ++ [proc_patch_methods]) w))
      with (nr_odoo_trace w).
    rewrite Hv.
    unfold method_strip, mbind, Py_bind, mret, Py_ret. cbv beta iota.
    rewrite trace_patches_run. reflexivity.
Qed.

(** X5. [patch_methods] raises exactly when the value it reads is neither
    [None] nor a string, and then before it has logged or wrapped anything.
    Otherwise it returns, having announced the list of pairs, applied the
    pairs before the first one that fails to unpack, each in turn, and
    logged that failure if there is one. *)
Theorem patch_methods_summary (w : world) :
  if parses (nr_odoo_trace w) then
    patch_methods w = (Return tt, patch_methods_result w)
  else
    exists obj,
      patch_methods w =
        (Raise (AttributeError obj "strip"),
         set_calls (calls w ++ [proc_patch_methods]) w).
Proof.
  destruct (parses (nr_odoo_trace w)) eqn:Hp.
  - apply patch_methods_parsed, Hp.
  - apply patch_methods_raises, Hp.
Qed.

Lemma wraps_of_BaseModel (cls : list (string * bool)) (patch : string) :
  Forall wraps_BaseModel (wraps_of cls patch).
Proof.
  unfold wraps_of.
  destruct (PyStr.split ":" patch) as [|base [|mode [|]]]; try constructor.
  unfold resolve.
  destruct (String.eqb base "odoo.models.BaseModel"); [|constructor].
  assert (Hpaths : forall prefix,
            Forall wraps_BaseModel
              (map (WrapFunctionTrace "odoo.models") (BaseModel_paths cls prefix))).
  { intros prefix. unfold BaseModel_paths. rewrite map_map.
    apply List.Forall_forall. intros c Hc.
    apply List.in_map_iff in Hc as (func & <- & _). exists func. reflexivity. }
  destruct (String.eqb mode "all"); [apply Hpaths|].
  destruct (String.eqb mode "public"); [apply Hpaths|].
  destruct (String.eqb mode "limited"); [|constructor].
  repeat (constructor; [eexists; reflexivity|]). constructor.
Qed.

(** X6. Whatever the environment and the configuration hold, every call
    [patch_methods] adds to the agent's record wraps a method of
    [BaseModel] in [odoo.models], and the calls recorded before stay. *)
Theorem patch_methods_only_BaseModel (w : world) :
  exists wraps,
    agent (snd (patch_methods w)) = (agent w ++ wraps)%list /\
    Forall wraps_BaseModel wraps.
Proof.
  destruct (parses (nr_odoo_trace w)) eqn:Hp.
  - rewrite (patch_methods_parsed w Hp). eexists. split; [reflexivity|].
    apply List.Forall_flat_map, List.Forall_forall.
    intros patch _. apply wraps_of_BaseModel.
  - destruct (patch_methods_raises w Hp) as [obj ->].
    exists []. cbn. rewrite app_nil_r. split; [reflexivity|constructor].
Qed.

Lemma first_error_None (l : list string) :
  first_error l = None <-> Forall (fun patch => count_char ":" patch = 1) l.
Proof.
  induction l as [|patch l IH]; cbn.
  - split; [constructor|reflexivity].
  - destruct (unpack_error patch) as [e|] eqn:He.
    + split; [discriminate|]. intros H. inversion H as [|? ? Hp _]; subst.
      apply well_formed_count, unpack_error_well_formed in Hp. congruence.
    + apply unpack_error_well_formed, well_formed_count in He.
      rewrite IH. split.
      * intros H. constructor; assumption.
      * intros H. inversion H; assumption.
Qed.

(** X7. For a trace specification that is a string, [patch_methods] logs
    nothing but its announcement exactly when every comma-separated pair
    holds exactly one ':'; a pair with none, or with two or more, gets an
    error logged. *)
Theorem patch_methods_error_logged (w : world) (s : string) :
  configured_trace w s ->
  log (snd (patch_methods w)) =
    (log w ++ [(INFO, ApplyingTracingTo (PyStr.split "," (PyStr.strip s)))])%list
  <->
  Forall (fun patch => count_char ":" patch = 1)
    (PyStr.split "," (PyStr.strip s)).
Proof.
  intros Hs. pose proof (nr_odoo_trace_configured w s Hs) as Hv.
  rewrite patch_methods_parsed by (rewrite Hv; reflexivity).
  unfold patch_methods_result. rewrite Hv. cbn.
  rewrite <- first_error_None.
  destruct (first_error (PyStr.split "," (PyStr.strip s))) as [e|].
  - split; [|discriminate]. intros H. apply app_inv_head in H. discriminate.
  - split; reflexivity.
Qed.

Lemma patch_methods_error_logged_witness :
  log (snd (patch_methods tracing_two_pairs)) =
    (log tracing_two_pairs ++
     [(INFO,
       ApplyingTracingTo
         (PyStr.split ","
            (PyStr.strip
               "odoo.models.BaseModel:limited,odoo.models.BaseModel:public")))])%list
  <->
  Forall (fun patch => count_char ":" patch = 1)
    (PyStr.split ","
       (PyStr.strip "odoo.models.BaseModel:limited,odoo.models.BaseModel:public")).
Proof.
  apply (patch_methods_error_logged tracing_two_pairs).
  left. vm_compute. reflexivity.
Defined.

Lemma startswith_dunder (func : string) :
  PyStr.startswith func "__" = true -> PyStr.startswith func "_" = true.
Proof.
  unfold PyStr.startswith.
  destruct func as [|c func]; [discriminate|].
  change (String.prefix "__" (String c func))
    with (if ascii_dec "_" c then String.prefix "_" func else false).
  change (String.prefix "_" (String c func))
    with (if ascii_dec "_" c then String.prefix "" func else false).
  destruct (ascii_dec "_" c); [|discriminate].
  intros _. destruct func; reflexivity.
Qed.

(** X8. The [all] mode resolves what the [public] mode resolves and, besides,
    the callable attributes whose name starts with one underscore but not
    with two. *)
Theorem all_paths_public_or_private (cls : list (string * bool)) (path : string) :
  In path (snd (resolve cls "odoo.models.BaseModel" "all")) <->
  In path (snd (resolve cls "odoo.models.BaseModel" "public")) \/
  exists func,
    path = "BaseModel." ++ func /\ In func (dir cls) /\
    callable_getattr cls func = true /\
    PyStr.startswith func "_" = true /\ PyStr.startswith func "__" = false.
Proof.
  cbn -[BaseModel_paths]. unfold BaseModel_paths.
  rewrite !List.in_map_iff. split.
  - intros (func & <- & Hin).
    apply List.filter_In in Hin as [Hdir Hkeep].
    apply andb_true_iff in Hkeep as [Hcall Hall]. apply negb_true_iff in Hall.
    destruct (PyStr.startswith func "_") eqn:Hpub.
    + right. exists func. auto.
    + left. exists func. split; [reflexivity|].
      apply List.filter_In. rewrite Hcall, Hpub. auto.
  - intros [(func & <- & Hin) | (func & -> & Hdir & Hcall & _ & Hall)];
      exists func; (split; [reflexivity|]); apply List.filter_In.
    + apply List.filter_In in Hin as [Hdir Hkeep].
      apply andb_true_iff in Hkeep as [Hcall Hpub]. rewrite Hcall.
      split; [exact Hdir|]. cbn.
      destruct (PyStr.startswith func "__") eqn:Hd; [|reflexivity].
      apply startswith_dunder in Hd. rewrite Hd in Hpub. discriminate.
    + rewrite Hcall, Hall. auto.
Qed.

Lemma nr_odoo_trace_environ (w : world) (s : string) (c : gmap string pyval) :
  environ w !! "NEW_RELIC_ODOO_TRACE" = Some s ->
  nr_odoo_trace (set_config c w) = PStr s.
Proof. unfold nr_odoo_trace. cbn. intros ->. reflexivity. Qed.

(** X9. When the environment variable is set, the configuration is not
    looked at: [patch_methods] returns, and does the same whatever the
    configuration store holds, the boolean that makes it raise included. *)
Theorem patch_methods_environ_first (w : world) (s : string)
    (c : gmap string pyval) :
  environ w !! "NEW_RELIC_ODOO_TRACE" = Some s ->
  patch_methods (set_config c w) =
    (Return tt, set_config c (snd (patch_methods w))) /\
  fst (patch_methods w) = Return tt.
Proof.
  intros Henv.
  assert (Hw : nr_odoo_trace w = PStr s).
  { apply nr_odoo_trace_configured. left. exact Henv. }
  pose proof (nr_odoo_trace_environ w s c Henv) as Hc.
  rewrite !patch_methods_parsed by (rewrite ?Hw, ?Hc; reflexivity).
  unfold patch_methods_result. rewrite Hw, Hc. split; reflexivity.
Qed.

Lemma patch_methods_environ_first_witness :
  patch_methods
    (set_config {[ "new_relic_odoo_trace" := PBool false ]} tracing_public) =
    (Return tt,
     set_config {[ "new_relic_odoo_trace" := PBool false ]}
       (snd (patch_methods tracing_public))) /\
  fst (patch_methods tracing_public) = Return tt.
Proof.
  apply (patch_methods_environ_first tracing_public
           "odoo.models.BaseModel:public").
  vm_compute. reflexivity.
Defined.

(** X10. A pair that unpacks but names another base than
    [odoo.models.BaseModel], or a mode other than [all], [public] and
    [limited], is skipped without a trace: nothing wrapped, nothing logged,
    nothing raised. *)
Theorem patch_one_unrecognised (patch base mode : string) (w : world) :
  PyStr.split ":" patch = [base; mode] ->
  base <> "odoo.models.BaseModel" \/
  (mode <> "all" /\ mode <> "public" /\ mode <> "limited") ->
  patch_one patch w = (Return tt, w).
Proof.
  intros Hsplit Hun.
  rewrite patch_one_well_formed by (unfold well_formed; rewrite Hsplit; reflexivity).
  unfold wraps_of, resolve. rewrite Hsplit.
  replace (match (if String.eqb base "odoo.models.BaseModel" then _ else _)
           with (Some m, paths) => map (WrapFunctionTrace m) paths | (None, _) => [] end)
    with (@nil agent_call).
  - rewrite app_nil_r. apply f_equal, set_agent_same.
  - destruct (String.eqb_spec base "odoo.models.BaseModel") as [Hb|Hb];
      [|reflexivity].
    destruct Hun as [Hun|(Ha & Hp & Hl)]; [contradiction|].
    destruct (String.eqb_spec mode "all"); [contradiction|].
    destruct (String.eqb_spec mode "public"); [contradiction|].
    destruct (String.eqb_spec mode "limited"); [contradiction|].
    reflexivity.
Qed.

Lemma patch_one_unrecognised_witness :
  patch_one "odoo.models.Model:all" startup = (Return tt, startup) /\
  patch_one "odoo.models.BaseModel:private" startup = (Return tt, startup).
Proof.
  split.
  - apply (patch_one_unrecognised _ "odoo.models.Model" "all");
      [reflexivity|left; discriminate].
  - apply (patch_one_unrecognised _ "odoo.models.BaseModel" "private");
      [reflexivity|right; repeat split; discriminate].
Defined.

(** ** The wrapper with an active transaction *)

(** The wrapper's run under a transaction, for use where wrappers nest. *)
Lemma wrapper_active_run (callable_name : pyobj -> string)
    (wrapped : handler) (args : list pyobj) (kwargs : list (string * pyobj))
    (w : world) (transaction : string) (arg : pyobj) :
  current_transaction w = Some transaction ->
  args !! 1 = Some arg ->
  _nr_wrapper_handle_error callable_name wrapped args kwargs w =
    (fst (wrapped args kwargs
            (trace_entered transaction (callable_name arg) w)),
     trace_left transaction (callable_name arg)
       (snd (wrapped args kwargs
               (trace_entered transaction (callable_name arg) w)))).
Proof.
  intros Htxn Harg.
  unfold _nr_wrapper_handle_error, getitem_args, with_FunctionTrace,
    trace_entered, trace_left, noticed.
  py_unfold. rewrite Htxn, Harg.
  destruct (notice_error transaction status_code w) as [[[]|e] w1] eqn:Hn.
  - cbn. destruct (wrapped args kwargs _) as [r w2]. reflexivity.
  - unfold notice_error in Hn. py_unfold.
    destruct (exc_info w) as [[[exc value] tb]|]; discriminate.
Qed.

Lemma trace_entered_transaction (transaction name : string) (w : world) :
  current_transaction (trace_entered transaction name w) = current_transaction w /\
  exc_info (trace_entered transaction name w) = exc_info w.
Proof.
  unfold trace_entered, noticed, notice_error. py_unfold.
  destruct (exc_info w) as [[[exc value] tb]|] eqn:He; cbn; auto.
Qed.

Lemma trace_entered_twice (transaction name exc : string) (value : exc_value)
    (tb : string) (w : world) :
  exc_info w = Some (exc, value, tb) ->
  trace_entered transaction name (trace_entered transaction name w) =
    set_agent
      (agent w ++
       [NoticeError transaction (status_code exc value tb);
        EnterFunctionTrace transaction name;
        NoticeError transaction (status_code exc value tb);
        EnterFunctionTrace transaction name])
      w.
Proof.
  intros He. unfold trace_entered, noticed, notice_error. py_unfold.
  rewrite He. cbn. rewrite He. cbn. rewrite <- !app_assoc. reflexivity.
Qed.

(** X11. With an active transaction and the exception as second positional
    argument, the wrapped [handle_error] calls the original handler with the
    same arguments inside a function trace named after the exception, and
    its outcome, result or exception, is the original handler's; the trace
    is left in both cases. *)
Theorem handle_error_delegates (callable_name : pyobj -> string)
    (wrapped : handler) (args : list pyobj) (kwargs : list (string * pyobj))
    (w : world) (transaction : string) (arg : pyobj) :
  current_transaction w = Some transaction ->
  args !! 1 = Some arg ->
  _nr_wrapper_handle_error callable_name wrapped args kwargs w =
    (fst (wrapped args kwargs
            (trace_entered transaction (callable_name arg) w)),
     trace_left transaction (callable_name arg)
       (snd (wrapped args kwargs
               (trace_entered transaction (callable_name arg) w)))).
Proof.
  intros Htxn Harg.
  unfold _nr_wrapper_handle_error, getitem_args, with_FunctionTrace,
    trace_entered, trace_left, noticed.
  py_unfold. rewrite Htxn, Harg.
  destruct (notice_error transaction status_code w) as [[[]|e] w1] eqn:Hn.
  - cbn. destruct (wrapped args kwargs _) as [r w2]. reflexivity.
  - unfold notice_error in Hn. py_unfold.
    destruct (exc_info w) as [[[exc value] tb]|]; discriminate.
Qed.

Lemma handle_error_delegates_witness :
  _nr_wrapper_handle_error class_name failing_handle_error
    [Dispatcher "HttpDispatcher"; ExcObject not_found] [] monitored_request =
    (fst (failing_handle_error
            [Dispatcher "HttpDispatcher"; ExcObject not_found] []
            (trace_entered "WebTransaction" (class_name (ExcObject not_found))
               monitored_request)),
     trace_left "WebTransaction" (class_name (ExcObject not_found))
       (snd (failing_handle_error
               [Dispatcher "HttpDispatcher"; ExcObject not_found] []
               (trace_entered "WebTransaction"
                  (class_name (ExcObject not_found)) monitored_request)))).
Proof.
  apply (handle_error_delegates class_name failing_handle_error
           [Dispatcher "HttpDispatcher"; ExcObject not_found] []
           monitored_request "WebTransaction" (ExcObject not_found));
    reflexivity.
Defined.

(** X12. With an active transaction and fewer than two positional
    arguments (the exception passed by keyword), the wrapped [handle_error]
    raises [IndexError] on [args[1]]: the error has been reported to the
    transaction, but the original handler is not called. *)
Theorem handle_error_keyword_exc (callable_name : pyobj -> string)
    (wrapped : handler) (args : list pyobj) (kwargs : list (string * pyobj))
    (w : world) (transaction : string) :
  current_transaction w = Some transaction ->
  length args < 2 ->
  _nr_wrapper_handle_error callable_name wrapped args kwargs w =
    (Raise (IndexError "tuple index out of range"), noticed transaction w).
Proof.
  intros Htxn Hlen.
  assert (Harg : args !! 1 = None) by (apply lookup_ge_None; lia).
  unfold _nr_wrapper_handle_error, getitem_args, noticed.
  py_unfold. rewrite Htxn, Harg.
  destruct (notice_error transaction status_code w) as [[[]|e] w1] eqn:Hn.
  - reflexivity.
  - unfold notice_error in Hn. py_unfold.
    destruct (exc_info w) as [[[exc value] tb]|]; discriminate.
Qed.

Lemma handle_error_keyword_exc_witness :
  _nr_wrapper_handle_error class_name framework_handle_error
    [Dispatcher "HttpDispatcher"] [("exc", ExcObject not_found)]
    monitored_request =
    (Raise (IndexError "tuple index out of range"),
     noticed "WebTransaction" monitored_request).
Proof.
  apply (handle_error_keyword_exc class_name framework_handle_error
           [Dispatcher "HttpDispatcher"] [("exc", ExcObject not_found)]
           monitored_request "WebTransaction"); [reflexivity|cbn; lia].
Defined.

(** X13. [setup_error_handling] has no guard of its own: run twice, it
    leaves two wrappers around a dispatcher's handler, and one error handled
    under a transaction is then reported to the agent twice and traced
    twice before the original handler runs. *)
Theorem setup_error_handling_twice (callable_name : pyobj -> string)
    (original : string -> handler) (w w' : world)
    (args : list pyobj) (kwargs : list (string * pyobj))
    (transaction : string) (arg : pyobj)
    (exc : string) (value : exc_value) (tb : string) :
  current_transaction w' = Some transaction ->
  exc_info w' = Some (exc, value, tb) ->
  args !! 1 = Some arg ->
  let name := callable_name arg in
  let reported := NoticeError transaction (status_code exc value tb) in
  let entered := EnterFunctionTrace transaction name in
  let inner :=
    denote callable_name original (HttpDispatcher_handle_error w) args kwargs
      (set_agent (agent w' ++ [reported; entered; reported; entered]) w') in
  denote callable_name original
    (HttpDispatcher_handle_error
       (snd (setup_error_handling (snd (setup_error_handling w)))))
    args kwargs w' =
    (fst inner,
     trace_left transaction name (trace_left transaction name (snd inner))).
Proof.
  intros Htxn Hexc Harg name reported entered inner.
  change (HttpDispatcher_handle_error
            (snd (setup_error_handling (snd (setup_error_handling w)))))
    with (NrWrapper (NrWrapper (HttpDispatcher_handle_error w))).
  cbn [denote].
  rewrite (wrapper_active_run _ _ _ _ _ transaction arg Htxn Harg).
  fold name.
  destruct (trace_entered_transaction transaction name w') as [Ht _].
  rewrite (wrapper_active_run _ _ _ _ _ transaction arg)
    by (rewrite ?Ht; assumption).
  fold name.
  rewrite (trace_entered_twice transaction name exc value tb w' Hexc).
  reflexivity.
Qed.

Lemma setup_error_handling_twice_witness :
  let original := fun _ : string => framework_handle_error in
  let args := [Dispatcher "HttpDispatcher"; ExcObject not_found] in
  let reported := NoticeError "WebTransaction" (PInt 404) in
  let entered := EnterFunctionTrace "WebTransaction" "NotFound" in
  let inner :=
    denote class_name original (HttpDispatcher_handle_error startup) args []
      (set_agent
         (agent monitored_request ++ [reported; entered; reported; entered])
         monitored_request) in
  denote class_name original
    (HttpDispatcher_handle_error
       (snd (setup_error_handling (snd (setup_error_handling startup)))))
    args [] monitored_request =
    (fst inner,
     trace_left "WebTransaction" "NotFound"
       (trace_left "WebTransaction" "NotFound" (snd inner))).
Proof.
  apply (setup_error_handling_twice class_name
           (fun _ : string => framework_handle_error) startup monitored_request
           [Dispatcher "HttpDispatcher"; ExcObject not_found] []
           "WebTransaction" (ExcObject not_found)
           "NotFound" not_found "traceback"); reflexivity.
Defined.

(** ** [post_load] as a whole *)

Lemma patch_wsgi_attempt_effect (w : world) :
  marker_set w = false ->
  exists a' s' msgs,
    patch_wsgi w =
      (Return true,
       set_Application a'
         (set_log (log w ++ msgs)
            (set_server s' (set_calls (calls w ++ [proc_patch_wsgi]) w)))) /\
    App.nr_instrumented a' = Some (PBool true).
Proof.
  intros Hm. destruct (call_is_readonly (Application w)) eqn:Hro.
  - eexists _, _, _. split; [apply (patch_wsgi_fallback_run w Hm Hro)|].
    reflexivity.
  - destruct (App.set_call (WrappedCallable (App.call (Application w)))
                (Application w)) as [a'|] eqn:Hset.
    + exists (App.set_nr_instrumented (PBool true) a'), (server w), [].
      split; [|apply nr_instrumented_set].
      rewrite (patch_wsgi_in_place_run w a' Hm Hset), app_nil_r.
      destruct w; reflexivity.
    + apply set_call_readonly in Hset. congruence.
Qed.

Lemma patch_bus_controller_effect (w : world) :
  exists wraps msgs,
    patch_bus_controller w =
      (Return tt,
       set_log (log w ++ msgs)
         (set_agent (agent w ++ wraps)
            (set_calls (calls w ++ [proc_patch_bus_controller]) w))) /\
    Forall is_wrap wraps.
Proof.
  unfold patch_bus_controller, import_bus_controllers. py_unfold. cbn.
  destruct (bus_importable w); cbn.
  - eexists [_], [_; _]. rewrite <- app_assoc.
    split; [reflexivity|]. repeat constructor.
  - eexists [], [_; _]. rewrite <- app_assoc, app_nil_r.
    split; [destruct w; reflexivity|constructor].
Qed.

(** When the agent refuses to start, [post_load] ends where
    [initialize_agent] does. *)
Lemma post_load_refused (w : world) :
  stops_after_init w = false ->
  agent_starts w = false ->
  exists msg msgs,
    post_load w =
      (Raise (ConfigurationError msg),
       set_agent (agent w ++ [Initialize (initialize_args w)])
         (set_log (log w ++ msgs)
            (set_calls (calls w ++ [proc_initialize_agent]) w))).
Proof.
  intros Hstop Hrefuses. unfold stops_after_init in Hstop.
  unfold post_load. py_unfold. rewrite Hstop.
  destruct (initialize_agent_effect w) as (msgs & ->).
  destruct (agent_refuses_raises w Hrefuses) as [msg ->].
  exists msg, msgs. reflexivity.
Qed.

(** X14. On a process that does not stop after init, whose agent starts,
    that is not instrumented yet and whose trace setting is absent or a
    string, [post_load] returns with all five procedures entered in order,
    [http.Application] marked and each dispatcher's [handle_error] under
    exactly one more wrapper. *)
Theorem post_load_patches_everything (w : world) :
  stops_after_init w = false ->
  agent_starts w = true ->
  marker_set w = false ->
  parses (nr_odoo_trace w) = true ->
  exists w',
    post_load w = (Return tt, w') /\
    App.nr_instrumented (Application w') = Some (PBool true) /\
    HttpDispatcher_handle_error w' = NrWrapper (HttpDispatcher_handle_error w) /\
    JsonRPCDispatcher_handle_error w' =
      NrWrapper (JsonRPCDispatcher_handle_error w) /\
    calls w' =
      (calls w ++
       [proc_initialize_agent; proc_patch_wsgi; proc_patch_bus_controller;
        proc_patch_methods; proc_setup_error_handling])%list.
Proof.
  intros Hstop Hstarts Hm Hp. unfold stops_after_init in Hstop.
  unfold post_load. py_unfold. rewrite Hstop.
  destruct (initialize_agent_effect w) as (msgs1 & ->).
  rewrite (agent_starts_returns w Hstarts).
  set (w1 := set_agent _ _).
  destruct (patch_wsgi_attempt_effect w1 Hm) as (a' & s' & msgs2 & -> & Ha').
  cbv beta iota.
  set (w3 := set_log _ _).
  destruct (patch_bus_controller_effect w3) as (wraps & msgs3 & -> & Hwraps).
  set (w4 := set_log _ _).
  rewrite (patch_methods_parsed w4 Hp).
  unfold setup_error_handling. py_unfold. cbn.
  eexists. split; [reflexivity|]. cbn.
  repeat split; [exact Ha'|]. rewrite <- !app_assoc. reflexivity.
Qed.

Lemma post_load_patches_everything_witness :
  exists w',
    post_load startup = (Return tt, w') /\
    App.nr_instrumented (Application w') = Some (PBool true) /\
    HttpDispatcher_handle_error w' =
      NrWrapper (HttpDispatcher_handle_error startup) /\
    JsonRPCDispatcher_handle_error w' =
      NrWrapper (JsonRPCDispatcher_handle_error startup) /\
    calls w' =
      (calls startup ++
       [proc_initialize_agent; proc_patch_wsgi; proc_patch_bus_controller;
        proc_patch_methods; proc_setup_error_handling])%list.
Proof.
  apply (post_load_patches_everything startup); vm_compute; reflexivity.
Defined.

Lemma post_load_instrumented_run (w : world) :
  stops_after_init w = false ->
  agent_starts w = true ->
  marker_set w = true ->
  exists msgs,
    post_load w =
      (Return tt,
       patch_wsgi_noop
         (set_agent (agent w ++ [Initialize (initialize_args w)])
            (set_log (log w ++ msgs)
               (set_calls (calls w ++ [proc_initialize_agent]) w)))).
Proof.
  intros Hstop Hstarts Hm. unfold stops_after_init in Hstop.
  unfold post_load. py_unfold. rewrite Hstop.
  destruct (initialize_agent_effect w) as (msgs & ->).
  rewrite (agent_starts_returns w Hstarts).
  exists msgs.
  rewrite patch_wsgi_short_circuit by exact Hm. reflexivity.
Qed.

(** Past [initialize_agent], [post_load] leaves [http.Application] marked,
    however it ends, and the settings as they were. *)
Lemma post_load_marks (w : world) :
  stops_after_init w = false ->
  agent_starts w = true ->
  marker_set (snd (post_load w)) = true /\
  stops_after_init (snd (post_load w)) = false /\
  agent_starts (snd (post_load w)) = true.
Proof.
  intros Hstop Hstarts. destruct (marker_set w) eqn:Hm.
  - destruct (post_load_instrumented_run w Hstop Hstarts Hm) as (msgs & ->).
    repeat split; assumption.
  - unfold stops_after_init in Hstop.
    unfold post_load. py_unfold. rewrite Hstop.
    destruct (initialize_agent_effect w) as (msgs1 & ->).
    rewrite (agent_starts_returns w Hstarts).
    set (w1 := set_agent _ _).
    destruct (patch_wsgi_attempt_effect w1 Hm) as (a' & s' & msgs2 & -> & Ha').
    cbv beta iota.
    set (w3 := set_log _ _).
    destruct (patch_bus_controller_effect w3) as (wraps & msgs3 & -> & Hwraps).
    set (w4 := set_log _ _).
    assert (Hmark : marker_set w4 = true).
    { unfold marker_set. cbn. rewrite Ha'. reflexivity. }
    destruct (parses (nr_odoo_trace w4)) eqn:Hp.
    + rewrite (patch_methods_parsed w4 Hp).
      unfold setup_error_handling. py_unfold. cbn.
      repeat split; [exact Hmark|exact Hstop|exact Hstarts].
    + destruct (patch_methods_raises w4 Hp) as [obj ->]. cbn.
      repeat split; [exact Hmark|exact Hstop|exact Hstarts].
Qed.

(** X15. A [post_load] that follows a [post_load] which got past
    [initialize_agent], however that first one ended afterwards, returns
    and patches nothing again: [http.Application], the server object and
    both handlers stay as they are; only the agent is initialized once
    more. *)
Theorem post_load_twice (w : world) :
  stops_after_init w = false ->
  agent_starts w = true ->
  let w1 := snd (post_load w) in
  exists args w2,
    post_load w1 = (Return tt, w2) /\
    Application w2 = Application w1 /\
    server w2 = server w1 /\
    HttpDispatcher_handle_error w2 = HttpDispatcher_handle_error w1 /\
    JsonRPCDispatcher_handle_error w2 = JsonRPCDispatcher_handle_error w1 /\
    agent w2 = (agent w1 ++ [Initialize args])%list.
Proof.
  intros Hstop Hstarts w1.
  destruct (post_load_marks w Hstop Hstarts) as (Hm & Hs & Ha).
  fold w1 in Hm, Hs, Ha.
  destruct (post_load_instrumented_run w1 Hs Ha Hm) as (msgs & Hrun).
  exists (initialize_args w1). eexists. split; [exact Hrun|]. repeat split.
Qed.

Lemma post_load_twice_witness :
  let w1 := snd (post_load tracing_false) in
  exists args w2,
    post_load w1 = (Return tt, w2) /\
    Application w2 = Application w1 /\
    server w2 = server w1 /\
    HttpDispatcher_handle_error w2 = HttpDispatcher_handle_error w1 /\
    JsonRPCDispatcher_handle_error w2 = JsonRPCDispatcher_handle_error w1 /\
    agent w2 = (agent w1 ++ [Initialize args])%list.
Proof. apply (post_load_twice tracing_false); vm_compute; reflexivity. Defined.

Lemma wraps_BaseModel_is_wrap (c : agent_call) : wraps_BaseModel c -> is_wrap c.
Proof. intros [name ->]. exact I. Qed.

Lemma post_load_fresh_run (w : world) :
  stops_after_init w = false ->
  agent_starts w = true ->
  marker_set w = false ->
  exists wraps w',
    snd (post_load w) = w' /\
    agent w' = (agent w ++ Initialize (initialize_args w) :: wraps)%list /\
    Forall is_wrap wraps /\
    if parses (nr_odoo_trace w) then fst (post_load w) = Return tt
    else exists obj, fst (post_load w) = Raise (AttributeError obj "strip").
Proof.
  intros Hstop Hstarts Hm. unfold stops_after_init in Hstop.
  unfold post_load. py_unfold. rewrite Hstop.
  destruct (initialize_agent_effect w) as (msgs1 & ->).
  rewrite (agent_starts_returns w Hstarts).
  set (w1 := set_agent _ _).
  destruct (patch_wsgi_attempt_effect w1 Hm) as (a' & s' & msgs2 & -> & Ha').
  cbv beta iota.
  set (w3 := set_log _ _).
  destruct (patch_bus_controller_effect w3) as (wraps & msgs3 & -> & Hwraps).
  set (w4 := set_log _ _).
  change (nr_odoo_trace w) with (nr_odoo_trace w4).
  destruct (parses (nr_odoo_trace w4)) eqn:Hp.
  - rewrite (patch_methods_parsed w4 Hp).
    unfold setup_error_handling. py_unfold. cbn.
    eexists (wraps ++ _)%list, _. split; [reflexivity|]. cbn.
    rewrite <- !app_assoc. split; [reflexivity|]. split; [|reflexivity].
    apply Forall_app. split; [exact Hwraps|].
    apply List.Forall_flat_map, List.Forall_forall. intros patch _.
    eapply List.Forall_impl; [|apply wraps_of_BaseModel].
    apply wraps_BaseModel_is_wrap.
  - destruct (patch_methods_raises w4 Hp) as [obj ->]. cbn.
    exists wraps. eexists. split; [reflexivity|]. cbn.
    rewrite <- !app_assoc. split; [reflexivity|]. split; [exact Hwraps|].
    exists obj. reflexivity.
Qed.

(** X16. [post_load] returns exactly when the process stops after init, or
    the agent starts and either [http.Application] is instrumented already
    or the trace setting is absent or a string.  In the cases that remain
    an exception leaves it: the [ConfigurationError] of [initialize], or
    the [AttributeError] of [patch_methods]. *)
Theorem post_load_outcome (w : world) :
  fst (post_load w) = Return tt <->
  stops_after_init w ||
  (agent_starts w && (marker_set w || parses (nr_odoo_trace w))) = true.
Proof.
  destruct (stops_after_init w) eqn:Hstop.
  { rewrite (post_load_stopped w Hstop). split; reflexivity. }
  destruct (agent_starts w) eqn:Hstarts.
  2:{ destruct (post_load_refused w Hstop Hstarts) as (msg & msgs & ->).
      split; discriminate. }
  destruct (marker_set w) eqn:Hm.
  { destruct (post_load_instrumented_run w Hstop Hstarts Hm) as (msgs & ->).
    split; reflexivity. }
  destruct (post_load_fresh_run w Hstop Hstarts Hm)
    as (wraps & w' & _ & _ & _ & Hr).
  cbn. destruct (parses (nr_odoo_trace w)).
  - rewrite Hr. split; reflexivity.
  - destruct Hr as [obj ->]. split; discriminate.
Qed.

(** X17. When [post_load] does not stop at once, the first call it adds to
    the agent's record is [initialize], and every call after it is a
    wrapping call: the agent is initialized once, before anything is
    wrapped. *)
Theorem post_load_initializes_first (w : world) :
  stops_after_init w = false ->
  exists args wraps,
    agent (snd (post_load w)) = (agent w ++ Initialize args :: wraps)%list /\
    Forall is_wrap wraps.
Proof.
  intros Hstop. exists (initialize_args w).
  destruct (agent_starts w) eqn:Hstarts.
  - destruct (marker_set w) eqn:Hm.
    + destruct (post_load_instrumented_run w Hstop Hstarts Hm) as (msgs & ->).
      exists []. split; [reflexivity|constructor].
    + destruct (post_load_fresh_run w Hstop Hstarts Hm)
        as (wraps & w' & -> & Hagent & Hwraps & _).
      exists wraps. split; assumption.
  - destruct (post_load_refused w Hstop Hstarts) as (msg & msgs & ->).
    exists []. split; [reflexivity|constructor].
Qed.

Lemma post_load_initializes_first_witness :
  exists args wraps,
    agent (snd (post_load startup)) =
      (agent startup ++ Initialize args :: wraps)%list /\
    Forall is_wrap wraps.
Proof. apply (post_load_initializes_first startup). vm_compute. reflexivity. Defined.
